(** * AI Model Hallucination Tracker: the detector and the scorer

    A shallow embedding of [src/hallucination_detector.py] and
    [src/scoring.py], and the properties of the classification and of the
    aggregation proved about it.

    Conventions of the embedding.
    - A Python [str] is a [string]; a character is a code point below 256
      (Latin-1), on which [str.strip], [str.lower] and the regular
      expression [\d] are written out as CPython defines them.
    - A Python [float] (and a float64 cell) is a primitive binary64 [float];
      every operation of the source on floats is the IEEE operation, so
      [0.4 + 0.2] is [0.6000000000000001] here as it is there.
    - An int64 cell is a [Z] in the range of int64.
    - A frame is the list of its column names and the list of its rows;
      pandas' own behaviour ([groupby], [count], [round], the [KeyError] of
      [agg]) is written out where the source relies on it.
    - A raised exception is the [Raise] case of [result]. *)

From Stdlib Require Import ZArith List String Ascii Bool Lia Permutation Sorted.
From Stdlib Require Import Floats Uint63.
Import ListNotations.

Set Warnings "-inexact-float".

Open Scope string_scope.
Open Scope Z_scope.

(* ================================================================== *)
(** * Python values and strings *)
(* ================================================================== *)

(** What a cell of an object column holds: a [str], or one of the two
    markers of a missing value, [None] and the float [nan]. *)
Inductive pyval : Type :=
  | PyStr (s : string)
  | PyNone
  | PyNaN.

(** [str(v)]. *)
Definition py_str (v : pyval) : string :=
  match v with
  | PyStr s => s
  | PyNone => "None"
  | PyNaN => "nan"
  end.

(** [pandas.isna(v)]. *)
Definition isna (v : pyval) : bool :=
  match v with
  | PyStr _ => false
  | PyNone | PyNaN => true
  end.

(** [v == s] for a [str] s: a missing value equals no string. *)
Definition py_eq_str (v : pyval) (s : string) : bool :=
  match v with
  | PyStr t => String.eqb t s
  | PyNone | PyNaN => false
  end.

Module PyString.

(** [c.isspace()] on Latin-1: the ASCII controls 9-13 and 28-31, the
    space, NEL (133) and the no-break space (160). *)
Definition isspace (c : ascii) : bool :=
  let n := nat_of_ascii c in
  ((9 <=? n) && (n <=? 13) || (28 <=? n) && (n <=? 32)
   || (n =? 133) || (n =? 160))%nat.

(** [c.lower()] on Latin-1: A-Z, and the accented capitals 192-222
    except the multiplication sign 215, move up by 32. *)
Definition lower_char (c : ascii) : ascii :=
  let n := nat_of_ascii c in
  if ((65 <=? n) && (n <=? 90)
      || (192 <=? n) && (n <=? 222) && negb (n =? 215))%nat
  then ascii_of_nat (n + 32) else c.

(** The class [\d] on Latin-1: the ten ASCII digits. *)
Definition isdigit (c : ascii) : bool :=
  let n := nat_of_ascii c in ((48 <=? n) && (n <=? 57))%nat.

Fixpoint lstrip_chars (l : list ascii) : list ascii :=
  match l with
  | c :: l' => if isspace c then lstrip_chars l' else l
  | [] => []
  end.

Definition rstrip_chars (l : list ascii) : list ascii :=
  rev (lstrip_chars (rev l)).

(** [s.strip()] *)
Definition strip (s : string) : string :=
  string_of_list_ascii (rstrip_chars (lstrip_chars (list_ascii_of_string s))).

(** [s.lower()] *)
Fixpoint lower (s : string) : string :=
  match s with
  | EmptyString => EmptyString
  | String c s' => String (lower_char c) (lower s')
  end.

(** [p in s]: p occurs in s as a substring. *)
Fixpoint contains (p s : string) : bool :=
  String.prefix p s ||
  match s with
  | EmptyString => false
  | String _ s' => contains p s'
  end.

(** [bool(re.search(r"\d", s))] *)
Fixpoint search_digit (s : string) : bool :=
  match s with
  | EmptyString => false
  | String c s' => isdigit c || search_digit s'
  end.

End PyString.

(* ================================================================== *)
(** * Floats: Python's and numpy's rounding *)
(* ================================================================== *)

Module PyFloat.

(** The integer nearest to [a / b] for [0 < b], a tie going to the even
    one. *)
Definition round_half_even (a b : Z) : Z :=
  let q := a / b in
  let r := a mod b in
  if 2 * r <? b then q
  else if b <? 2 * r then q + 1
  else if Z.even q then q else q + 1.

(** The float of an integer [0 <= n < 2^63] (exact below [2^53]). *)
Definition of_nonneg (n : Z) : float := PrimFloat.of_uint63 (Uint63.of_Z n).

(** The float64 of an int64 [- 2^63 <= z < 2^63], to nearest. *)
Definition of_int64 (z : Z) : float :=
  if z =? - 2 ^ 63 then (- 0x1p63)%float
  else if z <? 0 then (- of_nonneg (- z))%float
  else of_nonneg z.

Definition with_sign (s : bool) (x : float) : float :=
  if s then (- x)%float else x.

(** [round(x, 2)] of a Python float: the double nearest to the decimal
    with two places that is nearest to the exact value of [x] (a tie to
    the even last digit).  nan, the infinities and the zeros round to
    themselves.  With [|x| = m * 2^e] and [n] the integer nearest to
    [100 * |x|]: for [n < 2^53] the float [n] is exact and the IEEE
    division by 100 gives the double nearest to [n / 100]; for [n >= 2^53]
    the doubles around [x] are at least [2^-6] apart, so the double
    nearest to [n / 100] is [x] itself. *)
Definition round2 (x : float) : float :=
  match Prim2SF x with
  | S754_finite s m e =>
      if 0 <=? e then x
      else
        let n := round_half_even (Zpos m * 100) (2 ^ (- e)) in
        if 2 ^ 53 <=? n then x
        else with_sign s (of_nonneg n / 100)%float
  | _ => x
  end.

(** [min(x, y)] of two Python floats: the first argument unless the
    second is smaller. *)
Definition min (x y : float) : float :=
  if (y <? x)%float then y else x.

(** C's [rint] in the default rounding mode: the nearest integer, a tie
    to the even one, with the sign of the argument. *)
Definition rint (x : float) : float :=
  match Prim2SF x with
  | S754_finite s m e =>
      if 0 <=? e then x
      else with_sign s (of_nonneg (round_half_even (Zpos m) (2 ^ (- e))))
  | _ => x
  end.

(** [numpy.round(x, 2)], which is what [Series.round(2)] applies to a
    float64 column: [rint(x * 100) / 100]. *)
Definition np_round2 (x : float) : float :=
  (rint (x * 100) / 100)%float.

End PyFloat.

(* ================================================================== *)
(** * Exceptions *)
(* ================================================================== *)

(** The exceptions of the two modules; their messages are not kept. *)
Inductive error : Type :=
  | ValueError                          (* the schema error of the source *)
  | KeyError (missing : list string).   (* pandas: columns that do not exist *)

Inductive result (A : Type) : Type :=
  | Ok (a : A)
  | Raise (e : error).

Arguments Ok {A} a.
Arguments Raise {A} e.

(** The call failed with the required-field error of the source. *)
Definition is_schema_error {A : Type} (r : result A) : bool :=
  match r with
  | Raise ValueError => true
  | _ => false
  end.

(* ================================================================== *)
(** * Data frames *)
(* ================================================================== *)

(** A row of a frame: a cell for each column that the detector and the
    scorer read or write, with the dtype the pipeline gives the column
    (object for the texts, names and labels, int64 for the flag, float64
    for the scores).  Columns that only pass through are left out. *)
Record Row : Type := mkRow {
  response_text : pyval;
  model_name : pyval;
  hallucination_flag : Z;
  confidence_score : float;
  final_label : pyval;
  hallucination_risk_score : float
}.

(** A frame: [df.columns] and the rows.  Only the cells of the columns
    named in [columns] belong to the frame; no operation below reads a
    cell of another column. *)
Record DataFrame : Type := mkFrame {
  columns : list string;
  rows : list Row
}.

(** [name in df.columns] *)
Definition has_column (name : string) (df : DataFrame) : bool :=
  existsb (String.eqb name) (columns df).

(** [df[name]] as the list of its cells, for the column read by [get]. *)
Definition column {A : Type} (get : Row -> A) (df : DataFrame) : list A :=
  map get (rows df).

(** [df[name] = values]: the column is overwritten where it exists and is
    appended to [df.columns] where it does not; [set] stores a cell. *)
Definition assign {A : Type} (name : string) (set : Row -> A -> Row)
    (df : DataFrame) (values : list A) : DataFrame :=
  {| columns := if has_column name df then columns df
                else columns df ++ [name];
     rows := map (fun rv => set (fst rv) (snd rv)) (combine (rows df) values) |}.

Definition set_hallucination_flag (r : Row) (v : Z) : Row :=
  mkRow (response_text r) (model_name r) v (confidence_score r)
        (final_label r) (hallucination_risk_score r).

Definition set_confidence_score (r : Row) (v : float) : Row :=
  mkRow (response_text r) (model_name r) (hallucination_flag r) v
        (final_label r) (hallucination_risk_score r).

Definition set_final_label (r : Row) (v : pyval) : Row :=
  mkRow (response_text r) (model_name r) (hallucination_flag r)
        (confidence_score r) v (hallucination_risk_score r).

Definition set_hallucination_risk_score (r : Row) (v : float) : Row :=
  mkRow (response_text r) (model_name r) (hallucination_flag r)
        (confidence_score r) (final_label r) v.

(** Element-wise arithmetic of pandas on columns of one frame. *)
Module Series.

(** [1 - s] on a float64 column *)
Definition rsub_one (s : list float) : list float :=
  map (fun x => (1 - x)%float) s.

(** [s * y] for an int64 column and a float: the cells are converted to
    float64 first. *)
Definition mul_float (s : list Z) (y : float) : list float :=
  map (fun z => (PyFloat.of_int64 z * y)%float) s.

(** [a + b] on two float64 columns with the same index *)
Definition add (a b : list float) : list float :=
  map (fun xy => (fst xy + snd xy)%float) (combine a b).

(** [s.round(2)] on a float64 column *)
Definition round2 (s : list float) : list float :=
  map PyFloat.np_round2 s.

(** [s.apply(f)] *)
Definition apply {A B : Type} (f : A -> B) (s : list A) : list B :=
  map f s.

(** [s.count()]: the cells that are not missing. *)
Definition count (s : list pyval) : Z :=
  Z.of_nat (List.length (filter (fun v => negb (isna v)) s)).

(** [(s == label).sum()] *)
Definition count_eq (s : list pyval) (label : string) : Z :=
  Z.of_nat (List.length (filter (fun v => py_eq_str v label) s)).

(** Modelled from the spec: the arithmetic mean of a float64 column, which
    pandas computes in its own compiled code, not in this repository.  nan
    cells are skipped, as pandas does by default, and a column with no
    other cell has the mean nan. *)
Definition mean (s : list float) : float :=
  let present := filter (fun x => negb (PrimFloat.is_nan x)) s in
  match present with
  | [] => nan
  | _ => (fold_left PrimFloat.add present 0 /
          PyFloat.of_int64 (Z.of_nat (List.length present)))%float
  end.

End Series.

(* ================================================================== *)
(** * hallucination_detector.py *)
(* ================================================================== *)

Module HallucinationDetector.

(** [self.uncertainty_phrases], as [__init__] sets it. *)
Definition uncertainty_phrases : list string :=
  [ "i think"; "it seems"; "possibly"; "might be"; "not sure";
    "approximately"; "around"; "estimated" ].

Definition contains_uncertainty (text : string) : bool :=
  let text := PyString.lower text in
  existsb (fun phrase => PyString.contains phrase text) uncertainty_phrases.

Definition has_numeric_claim (text : string) : bool :=
  PyString.search_digit text.

(** The first statement of [score_response]:
    [str(response_text).strip().lower()]. *)
Definition normalize (response_text : pyval) : string :=
  PyString.lower (PyString.strip (py_str response_text)).

(** [hallucination_score] as the three [if] statements leave it, before
    the clamp, for the normalized text. *)
Definition accumulate (response_text : string) : float :=
  let hallucination_score := 0.0%float in
  let hallucination_score :=
    if contains_uncertainty response_text
    then (hallucination_score + 0.4)%float else hallucination_score in
  let hallucination_score :=
    if has_numeric_claim response_text
    then (hallucination_score + 0.2)%float else hallucination_score in
  let hallucination_score :=
    if (String.length response_text <? 30)%nat
    then (hallucination_score + 0.3)%float else hallucination_score in
  hallucination_score.

(** The tail of [score_response], from the clamp on. *)
Definition classify (hallucination_score : float) : Z * float * string :=
  let hallucination_score := PyFloat.min hallucination_score 1.0 in
  let confidence_score := PyFloat.round2 (1 - hallucination_score)%float in
  if (0.6 <=? hallucination_score)%float then
    (1, confidence_score, "hallucinated")
  else if (0.4 <=? hallucination_score)%float then
    (0, confidence_score, "uncertain")
  else
    (0, confidence_score, "accurate").

(** [score_response]: the triple
    [(hallucination_flag, confidence_score, final_label)]. *)
Definition score_response (response_text : pyval) : Z * float * string :=
  let response_text := normalize response_text in
  classify (accumulate response_text).

(** [analyze_dataframe]: the schema check, then [score_response] applied
    to the text column and its three components stored as columns. *)
Definition analyze_dataframe (df : DataFrame) : result DataFrame :=
  if negb (has_column "response_text" df) then Raise ValueError
  else
    let results := df in
    let outputs := Series.apply score_response (column response_text results) in
    let results :=
      assign "hallucination_flag" set_hallucination_flag results
             (Series.apply (fun x => fst (fst x)) outputs) in
    let results :=
      assign "confidence_score" set_confidence_score results
             (Series.apply (fun x => snd (fst x)) outputs) in
    let results :=
      assign "final_label" set_final_label results
             (Series.apply (fun x => PyStr (snd x)) outputs) in
    Ok results.

End HallucinationDetector.

(* ================================================================== *)
(** * scoring.py *)
(* ================================================================== *)

(** A row of the summary frame of [generate_model_summary]. *)
Record ModelSummary : Type := mkSummary {
  summary_model_name : string;
  total_responses : Z;
  hallucinated_count : Z;
  uncertain_count : Z;
  avg_confidence_score : float;
  avg_risk_score : float;
  hallucination_rate : float
}.

Module HallucinationScorer.

Definition required_cols : list string :=
  [ "hallucination_flag"; "confidence_score"; "final_label" ].

(** [compute_final_score]: the schema check, then the risk column. *)
Definition compute_final_score (df : DataFrame) : result DataFrame :=
  if negb (forallb (fun c => has_column c df) required_cols) then
    Raise ValueError
  else
    let scored_df := df in
    Ok (assign "hallucination_risk_score" set_hallucination_risk_score
          scored_df
          (Series.round2
             (Series.add
                (Series.rsub_one (column confidence_score scored_df))
                (Series.mul_float (column hallucination_flag scored_df) 0.5)))).

(** The columns the named aggregations read, in sorted order; [agg] raises
    [KeyError] with those of them that the frame does not have. *)
Definition aggregated_cols : list string :=
  [ "confidence_score"; "final_label"; "hallucination_risk_score" ].

Fixpoint insert_sorted (k : string) (l : list string) : list string :=
  match l with
  | [] => [k]
  | x :: l' => if String.leb k x then k :: l else x :: insert_sorted k l'
  end.

(** [sorted(l)] for strings, which Python orders by code point. *)
Definition sort (l : list string) : list string :=
  fold_right insert_sorted [] l.

(** The names that are not missing, in row order. *)
Fixpoint present_names (names : list pyval) : list string :=
  match names with
  | [] => []
  | PyStr s :: names' => s :: present_names names'
  | _ :: names' => present_names names'
  end.

(** The keys of [df.groupby("model_name")]: the distinct names, the
    missing ones dropped, in sorted order. *)
Definition group_keys (df : DataFrame) : list string :=
  sort (nodup string_dec (present_names (column model_name df))).

(** The rows of the group of a key. *)
Definition group (key : string) (df : DataFrame) : list Row :=
  filter (fun r => py_eq_str (model_name r) key) (rows df).

(** The summary row of one group: the five named aggregations, and the
    [hallucination_rate] that the source then adds from two of them. *)
Definition summarize (key : string) (g : list Row) : ModelSummary :=
  let total_responses := Series.count (map final_label g) in
  let hallucinated_count := Series.count_eq (map final_label g) "hallucinated" in
  let uncertain_count := Series.count_eq (map final_label g) "uncertain" in
  {| summary_model_name := key;
     total_responses := total_responses;
     hallucinated_count := hallucinated_count;
     uncertain_count := uncertain_count;
     avg_confidence_score := Series.mean (map confidence_score g);
     avg_risk_score := Series.mean (map hallucination_risk_score g);
     hallucination_rate :=
       PyFloat.np_round2 (PyFloat.of_int64 hallucinated_count /
                          PyFloat.of_int64 total_responses)%float |}.

(** [generate_model_summary]: the schema check on the grouping column,
    pandas' own check of the aggregated columns, then a row per group. *)
Definition generate_model_summary (df : DataFrame) : result (list ModelSummary) :=
  if negb (has_column "model_name" df) then Raise ValueError
  else
    match filter (fun c => negb (has_column c df)) aggregated_cols with
    | [] => Ok (map (fun key => summarize key (group key df)) (group_keys df))
    | missing => Raise (KeyError missing)
    end.

End HallucinationScorer.

(* ================================================================== *)
(** * The classification as the specification words it *)
(* ================================================================== *)

Module Spec.

(** The three contributions, each decided on the normalized text alone. *)
Definition uncertainty_contribution (normalized : string) : float :=
  if existsb (fun phrase => PyString.contains phrase normalized)
             HallucinationDetector.uncertainty_phrases
  then 0.4%float else 0%float.

Definition digit_contribution (normalized : string) : float :=
  if PyString.search_digit normalized then 0.2%float else 0%float.

Definition length_contribution (normalized : string) : float :=
  if (String.length normalized <? 30)%nat then 0.3%float else 0%float.

(** Trim and lowercase; sum the three contributions; clamp at 1.0;
    confidence is [round(1 - score, 2)]; flag and label by the two
    thresholds. *)
Definition score_response (text : pyval) : Z * float * string :=
  let normalized := PyString.lower (PyString.strip (py_str text)) in
  let score :=
    (uncertainty_contribution normalized + digit_contribution normalized
     + length_contribution normalized)%float in
  let score := if (1.0 <? score)%float then 1.0%float else score in
  let confidence_score := PyFloat.round2 (1 - score)%float in
  if (0.6 <=? score)%float then (1, confidence_score, "hallucinated")
  else if ((0.4 <=? score) && (score <? 0.6))%float
       then (0, confidence_score, "uncertain")
       else (0, confidence_score, "accurate").

End Spec.

(* ================================================================== *)
(** * Frames used as examples *)
(* ================================================================== *)

Module Examples.

(** A scored row of a model, with the label, flag and scores given. *)
Definition scored (name label : pyval) (flag : Z) (confidence risk : float) : Row :=
  mkRow (PyStr "") name flag confidence label risk.

Definition all_columns : list string :=
  [ "response_text"; "model_name"; "hallucination_flag";
    "confidence_score"; "final_label"; "hallucination_risk_score" ].

(** One model, three responses, one of them hallucinated. *)
Definition one_in_three : DataFrame :=
  mkFrame all_columns
    [ scored (PyStr "Model-A") (PyStr "hallucinated") 1 0.4 1.1;
      scored (PyStr "Model-A") (PyStr "accurate") 0 1.0 0.0;
      scored (PyStr "Model-A") (PyStr "accurate") 0 0.7 0.3 ]%float.

(** One model, two responses, the label of the second missing. *)
Definition missing_label : DataFrame :=
  mkFrame all_columns
    [ scored (PyStr "Model-A") (PyStr "accurate") 0 1.0 0.0;
      scored (PyStr "Model-A") PyNone 0 0.7 0.3 ]%float.


(** The sample of the quick test of [scoring.py], before scoring. *)
Definition sample_data : DataFrame :=
  mkFrame [ "model_name"; "hallucination_flag"; "confidence_score"; "final_label" ]
    [ scored (PyStr "Model-A") (PyStr "accurate") 0 0.9 0;
      scored (PyStr "Model-A") (PyStr "hallucinated") 1 0.4 0;
      scored (PyStr "Model-B") (PyStr "uncertain") 0 0.8 0 ]%float.

(** The same sample after [compute_final_score]. *)
Definition scored_sample : DataFrame :=
  mkFrame [ "model_name"; "hallucination_flag"; "confidence_score";
            "final_label"; "hallucination_risk_score" ]
    [ scored (PyStr "Model-A") (PyStr "accurate") 0 0.9 0.1;
      scored (PyStr "Model-A") (PyStr "hallucinated") 1 0.4 1.1;
      scored (PyStr "Model-B") (PyStr "uncertain") 0 0.8 0.2 ]%float.

(** Two responses with their model, not yet analyzed. *)
Definition raw_responses : DataFrame :=
  mkFrame [ "model_name"; "response_text" ]
    [ mkRow (PyStr "Approximately 42") (PyStr "Model-B") 0 0 PyNone 0;
      mkRow (PyStr "Paris is the capital of France.") (PyStr "Model-A") 0 0 PyNone 0 ]%float.

(** Responses as they are loaded: untidy whitespace, a missing response
    and one that is too short. *)
Definition loaded_responses : DataFrame :=
  mkFrame [ "model_name"; "response_text" ]
    [ mkRow (PyStr "  It is   approximately 42.  ") (PyStr "Model-A") 0 0 PyNone 0;
      mkRow PyNone (PyStr "Model-A") 0 0 PyNone 0;
      mkRow (PyStr "Yes.") (PyStr "Model-B") 0 0 PyNone 0;
      mkRow (PyStr "Paris is the capital of France.") (PyStr "Model-B") 0 0 PyNone 0 ]%float.

(** The same responses as [clean_responses] returns them. *)
Definition cleaned_responses : DataFrame :=
  mkFrame [ "model_name"; "response_text" ]
    [ mkRow (PyStr "It is approximately 42.") (PyStr "Model-A") 0 0 PyNone 0;
      mkRow (PyStr "Paris is the capital of France.") (PyStr "Model-B") 0 0 PyNone 0 ]%float.

(** The two rows of the scored frame of the run on these responses. *)
Definition flagged_row : Row :=
  mkRow (PyStr "It is approximately 42.") (PyStr "Model-A")
        1 0.1 (PyStr "hallucinated") 1.4.

Definition accurate_row : Row :=
  mkRow (PyStr "Paris is the capital of France.") (PyStr "Model-B")
        0 1.0 (PyStr "accurate") 0.

Definition run_scored : DataFrame :=
  mkFrame [ "model_name"; "response_text"; "hallucination_flag";
            "confidence_score"; "final_label"; "hallucination_risk_score" ]
    [ flagged_row; accurate_row ].

Definition run_summary : list ModelSummary :=
  [ HallucinationScorer.summarize "Model-A" [flagged_row];
    HallucinationScorer.summarize "Model-B" [accurate_row] ].

(** A classified frame with the model names but without the scores that
    the aggregation reads. *)
Definition names_and_labels : DataFrame :=
  mkFrame [ "model_name"; "final_label" ]
    [ scored (PyStr "Model-A") (PyStr "accurate") 0 0 0 ]%float.

End Examples.

(* ================================================================== *)
(** * data_loader.py *)
(* ================================================================== *)

Definition set_response_text (r : Row) (v : pyval) : Row :=
  mkRow v (model_name r) (hallucination_flag r) (confidence_score r)
        (final_label r) (hallucination_risk_score r).

(** The [.str] methods of pandas that the loader calls on the text column. *)
Module Str.

(** [re.sub(r"\s+", " ", s)] on the characters of s: every maximal run of
    whitespace becomes one space; [in_run] says that the character before
    was whitespace.  The class [\s] is the whitespace of [str.isspace]. *)
Fixpoint collapse_whitespace (in_run : bool) (l : list ascii) : list ascii :=
  match l with
  | [] => []
  | c :: l' =>
      if PyString.isspace c then
        if in_run then collapse_whitespace true l'
        else " "%char :: collapse_whitespace true l'
      else c :: collapse_whitespace false l'
  end.

(** [s.str.replace(r"\s+", " ", regex=True)] on one cell *)
Definition replace_whitespace (s : string) : string :=
  string_of_list_ascii (collapse_whitespace false (list_ascii_of_string s)).

(** [s.str.len()] on one cell: a missing cell has no length. *)
Definition len (v : pyval) : option nat :=
  match v with
  | PyStr s => Some (String.length s)
  | PyNone | PyNaN => None
  end.

(** [s.str.len() > n] on one cell: false on a missing cell. *)
Definition len_gt (n : nat) (v : pyval) : bool :=
  match len v with
  | Some k => (n <? k)%nat
  | None => false
  end.

End Str.

Module DataLoader.

(** [clean_responses]: the schema check, the text column converted to
    [str], stripped and with its whitespace collapsed, then the rows kept
    whose text is longer than 10 characters ([reset_index] renumbers the
    rows, which are a list here). *)
Definition clean_responses (df : DataFrame) : result DataFrame :=
  let df := df in
  if negb (has_column "response_text" df) then Raise ValueError
  else
    let df :=
      assign "response_text" set_response_text df
        (Series.apply (fun s => PyStr (Str.replace_whitespace s))
           (Series.apply PyString.strip
              (Series.apply py_str (column response_text df)))) in
    let df :=
      mkFrame (columns df)
              (filter (fun r => Str.len_gt 10 (response_text r)) (rows df)) in
    Ok df.

End DataLoader.

(* ================================================================== *)
(** * visualization.py: the pipeline of the main block *)
(* ================================================================== *)

(** Sequencing of calls: an exception of the first ends the run. *)
Definition bind {A B : Type} (x : result A) (f : A -> result B) : result B :=
  match x with
  | Ok a => f a
  | Raise e => Raise e
  end.

Module Main.

(** The main block after the frame is loaded: clean, analyze, score and
    summarize.  The scored frame and the summary are what the three plots
    are drawn from. *)
Definition run (df : DataFrame) : result (DataFrame * list ModelSummary) :=
  bind (DataLoader.clean_responses df) (fun df =>
  bind (HallucinationDetector.analyze_dataframe df) (fun df =>
  bind (HallucinationScorer.compute_final_score df) (fun df =>
  bind (HallucinationScorer.generate_model_summary df) (fun summary_df =>
  Ok (df, summary_df))))).

End Main.

(* ================================================================== *)
(** * Properties of the detector *)
(* ================================================================== *)

Import HallucinationDetector.

(** Two floats with different decodings are different. *)
Lemma float_neq (x y : float) : Prim2SF x <> Prim2SF y -> x <> y.
Proof. intros Hne Heq. apply Hne. now rewrite Heq. Qed.

Ltac float_discriminate :=
  apply float_neq; vm_compute; discriminate.

Lemma lower_char_idempotent (c : ascii) :
  PyString.lower_char (PyString.lower_char c) = PyString.lower_char c.
Proof.
  destruct c as [b0 b1 b2 b3 b4 b5 b6 b7].
  destruct b0, b1, b2, b3, b4, b5, b6, b7; reflexivity.
Qed.

Lemma lower_idempotent (s : string) :
  PyString.lower (PyString.lower s) = PyString.lower s.
Proof.
  induction s as [| c s IH]; simpl.
  - reflexivity.
  - now rewrite lower_char_idempotent, IH.
Qed.

(** On a text that is already lowercase, [contains_uncertainty] is the
    plain search for a phrase. *)
Lemma contains_uncertainty_normalized (v : pyval) :
  contains_uncertainty (normalize v) =
  existsb (fun phrase => PyString.contains phrase (normalize v))
          uncertainty_phrases.
Proof.
  unfold contains_uncertainty, normalize.
  now rewrite lower_idempotent.
Qed.

(** The accumulated score is decided by the three checks. *)
Lemma accumulate_cases (t : string) :
  accumulate t =
  match contains_uncertainty t, has_numeric_claim t,
        (String.length t <? 30)%nat with
  | false, false, false => 0
  | false, false, true => 0.3
  | false, true, false => 0.2
  | false, true, true => 0.2 + 0.3
  | true, false, false => 0.4
  | true, false, true => 0.4 + 0.3
  | true, true, false => 0.4 + 0.2
  | true, true, true => 0.4 + 0.2 + 0.3
  end%float.
Proof.
  unfold accumulate.
  destruct (contains_uncertainty t), (has_numeric_claim t),
    (String.length t <? 30)%nat; reflexivity.
Qed.

(** What [score_response] returns in each of the eight cases. *)
Lemma score_response_cases (v : pyval) :
  score_response v =
  match contains_uncertainty (normalize v), has_numeric_claim (normalize v),
        (String.length (normalize v) <? 30)%nat with
  | false, false, false => (0, 1.0%float, "accurate")
  | false, false, true => (0, 0.7%float, "accurate")
  | false, true, false => (0, 0.8%float, "accurate")
  | false, true, true => (0, 0.5%float, "uncertain")
  | true, false, false => (0, 0.6%float, "uncertain")
  | true, false, true => (1, 0.3%float, "hallucinated")
  | true, true, false => (1, 0.4%float, "hallucinated")
  | true, true, true => (1, 0.1%float, "hallucinated")
  end.
Proof.
  unfold score_response. rewrite accumulate_cases.
  destruct (contains_uncertainty (normalize v)),
    (has_numeric_claim (normalize v)),
    (String.length (normalize v) <? 30)%nat; vm_compute; reflexivity.
Qed.

(** C1: for every input, [score_response] is the classification that the
    specification words: the text trimmed and lowercased, the score the sum
    of the three independent contributions (0.4 for an uncertainty phrase,
    0.2 for a digit, 0.3 for a length under 30), clamped at 1.0, the
    confidence [round(1 - score, 2)], and the flag and label taken from the
    thresholds 0.6 and 0.4. *)
Theorem score_response_refines_spec (text : pyval) :
  score_response text = Spec.score_response text.
Proof.
  rewrite score_response_cases, contains_uncertainty_normalized.
  unfold Spec.score_response, Spec.uncertainty_contribution,
    Spec.digit_contribution, Spec.length_contribution, has_numeric_claim.
  fold (normalize text).
  destruct (existsb _ uncertainty_phrases),
    (PyString.search_digit (normalize text)),
    (String.length (normalize text) <? 30)%nat; vm_compute; reflexivity.
Qed.

(** C2, as the code has it: for the text "Approximately 42" the three
    checks hold, the score is [0.4 + 0.2 + 0.3], below 1.0 so that the clamp
    leaves it, and the result is flag 1, confidence 0.1, "hallucinated". *)
Theorem score_response_approximately_42 :
  let text := PyStr "Approximately 42" in
  contains_uncertainty (normalize text) = true /\
  has_numeric_claim (normalize text) = true /\
  (String.length (normalize text) <? 30)%nat = true /\
  accumulate (normalize text) = (0.4 + 0.2 + 0.3)%float /\
  PyFloat.min (accumulate (normalize text)) 1.0 = (0.4 + 0.2 + 0.3)%float /\
  score_response text = (1, 0.1%float, "hallucinated").
Proof. vm_compute. repeat split; reflexivity. Qed.

(** C2, as stated, fails: the result for "Approximately 42" is not flag 1,
    confidence 0.00, "hallucinated", and its score is not clamped to 1.0. *)
Lemma score_response_approximately_42_not_clamped :
  score_response (PyStr "Approximately 42") <> (1, 0%float, "hallucinated") /\
  PyFloat.min (accumulate (normalize (PyStr "Approximately 42"))) 1.0 <> 1.0%float.
Proof.
  split.
  - intros H. vm_compute in H.
    assert (Hc : 0.1%float = 0%float) by congruence.
    revert Hc. float_discriminate.
  - float_discriminate.
Qed.

Lemma lstrip_chars_blank (l : list ascii) :
  forallb PyString.isspace l = true -> PyString.lstrip_chars l = [].
Proof.
  induction l as [| c l IH]; simpl; intros H.
  - reflexivity.
  - apply andb_true_iff in H. destruct H as [Hc Hl].
    rewrite Hc. now apply IH.
Qed.

(** A text of whitespace only is stripped to the empty text. *)
Lemma strip_blank (s : string) :
  forallb PyString.isspace (list_ascii_of_string s) = true ->
  PyString.strip s = "".
Proof.
  intros H. unfold PyString.strip.
  now rewrite (lstrip_chars_blank _ H).
Qed.

(** C8: [score_response] is a function defined on every input, a text or a
    missing value: each input has one result and no input fails.  The
    missing values [None] and [nan], the empty text and every text of
    whitespace only get the flag, confidence and label of the empty
    string, which are 0, 0.7 and "accurate". *)
Theorem score_response_total_missing_as_empty :
  (forall v : pyval, exists r : Z * float * string,
      score_response v = r /\ forall r', score_response v = r' -> r' = r) /\
  score_response PyNone = score_response (PyStr "") /\
  score_response PyNaN = score_response (PyStr "") /\
  (forall s : string,
      forallb PyString.isspace (list_ascii_of_string s) = true ->
      score_response (PyStr s) = score_response (PyStr "")) /\
  score_response (PyStr "") = (0, 0.7%float, "accurate").
Proof.
  split; [| split; [| split; [| split]]].
  - intros v. exists (score_response v). split; [reflexivity | congruence].
  - vm_compute. reflexivity.
  - vm_compute. reflexivity.
  - intros s Hs. unfold score_response, normalize. simpl py_str.
    now rewrite (strip_blank s Hs).
  - vm_compute. reflexivity.
Qed.

(** C9: for every input the score before the clamp is at most
    [0.4 + 0.2 + 0.3], which is below 1.0, so the clamp returns the score
    unchanged; the confidence returned is at least 0.1 and is never 0.
    (The sum is taken in binary64, as the code takes it.) *)
Theorem score_never_reaches_clamp (text : pyval) :
  let score := accumulate (normalize text) in
  let confidence_score := snd (fst (score_response text)) in
  (score <=? 0.4 + 0.2 + 0.3)%float = true /\
  (0.4 + 0.2 + 0.3 <? 1.0)%float = true /\
  PyFloat.min score 1.0 = score /\
  (0.1 <=? confidence_score)%float = true /\
  confidence_score <> 0%float.
Proof.
  cbv zeta. rewrite score_response_cases, accumulate_cases.
  destruct (contains_uncertainty (normalize text)),
    (has_numeric_claim (normalize text)),
    (String.length (normalize text) <? 30)%nat;
    (repeat split; try (vm_compute; reflexivity); float_discriminate).
Qed.

(* ================================================================== *)
(** * Frames: assignment of a column *)
(* ================================================================== *)

Section Assign.

Context {A : Type}.
Variable name : string.
Variable set : Row -> A -> Row.

Lemma combine_map_map {X Y Z' : Type} (f : X -> Y) (g : X -> Z') (l : list X) :
  combine (map f l) (map g l) = map (fun x => (f x, g x)) l.
Proof. induction l as [| x l IH]; simpl; congruence. Qed.

(** Assigning a column computed row by row, for rows [map f l] that sit in
    the frame, stores in each row the value computed for it. *)
Lemma assign_map {X : Type} (cols : list string) (f : X -> Row)
    (g : X -> A) (l : list X) :
  assign name set (mkFrame cols (map f l)) (map g l) =
  mkFrame (if existsb (String.eqb name) cols then cols else cols ++ [name])
          (map (fun x => set (f x) (g x)) l).
Proof.
  unfold assign, has_column; simpl.
  rewrite combine_map_map, map_map. reflexivity.
Qed.

Lemma has_column_app_r (c : string) (cols : list string) :
  existsb (String.eqb c) (cols ++ [c]) = true.
Proof.
  rewrite existsb_app. simpl.
  rewrite String.eqb_refl. apply orb_true_r.
Qed.

(** After [df[name] = values] the frame has the column. *)
Lemma has_column_assign (df : DataFrame) (values : list A) :
  has_column name (assign name set df values) = true.
Proof.
  unfold assign, has_column; simpl.
  destruct (existsb (String.eqb name) (columns df)) eqn:E.
  - exact E.
  - apply has_column_app_r.
Qed.

(** Assigning a column removes none. *)
Lemma has_column_assign_other (c : string) (df : DataFrame) (values : list A) :
  has_column c df = true -> has_column c (assign name set df values) = true.
Proof.
  unfold assign, has_column; simpl. intros H.
  destruct (existsb (String.eqb name) (columns df)).
  - exact H.
  - rewrite existsb_app, H. reflexivity.
Qed.

End Assign.

(* ================================================================== *)
(** * Properties of the batch operations *)
(* ================================================================== *)

Import HallucinationScorer.

(** The row that [analyze_dataframe] makes of a row: the three components
    of [score_response] on its text stored in it. *)
Lemma analyze_dataframe_rows (df : DataFrame) :
  has_column "response_text" df = true ->
  exists out,
    analyze_dataframe df = Ok out /\
    rows out =
      map (fun r =>
             let x := score_response (response_text r) in
             set_final_label
               (set_confidence_score
                  (set_hallucination_flag r (fst (fst x))) (snd (fst x)))
               (PyStr (snd x)))
          (rows df).
Proof.
  intros Hcol. destruct df as [cols rs].
  unfold analyze_dataframe. rewrite Hcol. simpl negb. cbv iota.
  unfold column, Series.apply. simpl rows. rewrite !map_map.
  eexists. split; [reflexivity |].
  rewrite <- (map_id rs) at 1.
  rewrite assign_map, assign_map, assign_map. reflexivity.
Qed.

(** The rows that [compute_final_score] returns: each input row with its
    risk score stored. *)
Lemma compute_final_score_rows (df : DataFrame) :
  forallb (fun c => has_column c df) required_cols = true ->
  compute_final_score df =
  Ok (mkFrame
        (if has_column "hallucination_risk_score" df then columns df
         else columns df ++ ["hallucination_risk_score"])
        (map (fun r =>
                set_hallucination_risk_score r
                  (PyFloat.np_round2
                     ((1 - confidence_score r)
                      + PyFloat.of_int64 (hallucination_flag r) * 0.5)%float))
             (rows df))).
Proof.
  intros Hcols. destruct df as [cols rs].
  unfold compute_final_score. rewrite Hcols. simpl negb. cbv iota.
  unfold column, Series.round2, Series.add, Series.rsub_one, Series.mul_float.
  simpl rows. rewrite !map_map, combine_map_map, !map_map. simpl fst. simpl snd.
  rewrite <- (map_id rs) at 1.
  rewrite assign_map. reflexivity.
Qed.

(** The frame that [analyze_dataframe] returns keeps the columns of its
    input and has the three columns that [compute_final_score] requires. *)
Lemma analyze_dataframe_columns (df out : DataFrame) :
  analyze_dataframe df = Ok out ->
  forallb (fun c => has_column c out) required_cols = true /\
  (forall c, has_column c df = true -> has_column c out = true).
Proof.
  unfold analyze_dataframe.
  destruct (has_column "response_text" df); [| discriminate].
  simpl negb. cbv iota zeta. intros H. injection H as <-. split.
  - unfold required_cols. cbn [forallb].
    rewrite has_column_assign_other by
      (apply has_column_assign_other, has_column_assign).
    rewrite has_column_assign_other by apply has_column_assign.
    rewrite has_column_assign. reflexivity.
  - intros c Hc. now do 3 apply has_column_assign_other.
Qed.

(** The detector feeds the scorer: on a frame with the text column,
    [analyze_dataframe] and then [compute_final_score] both succeed. *)
Lemma analyze_then_score (df : DataFrame) :
  has_column "response_text" df = true ->
  exists classified scored,
    analyze_dataframe df = Ok classified /\
    compute_final_score classified = Ok scored /\
    List.length (rows scored) = List.length (rows df).
Proof.
  intros Htext.
  destruct (analyze_dataframe_rows df Htext) as [classified [Hok Hrows]].
  destruct (analyze_dataframe_columns df classified Hok) as [Hreq _].
  exists classified. eexists. split; [exact Hok |].
  split; [apply (compute_final_score_rows classified Hreq) |].
  simpl rows. rewrite length_map, Hrows. apply length_map.
Qed.

(** C3: when the three required columns are present, [compute_final_score]
    returns a frame with as many rows as its input, and in every row the
    risk score added is [round((1 - confidence_score) + hallucination_flag
    * 0.5, 2)] of that row, the flag, the confidence and the label being
    those of the input row. *)
Theorem compute_final_score_risk (df : DataFrame) :
  forallb (fun c => has_column c df) required_cols = true ->
  exists out,
    compute_final_score df = Ok out /\
    has_column "hallucination_risk_score" out = true /\
    List.length (rows out) = List.length (rows df) /\
    forall (i : nat) (r : Row),
      nth_error (rows df) i = Some r ->
      exists r',
        nth_error (rows out) i = Some r' /\
        hallucination_risk_score r' =
          PyFloat.np_round2
            ((1 - confidence_score r)
             + PyFloat.of_int64 (hallucination_flag r) * 0.5)%float /\
        hallucination_flag r' = hallucination_flag r /\
        confidence_score r' = confidence_score r /\
        final_label r' = final_label r.
Proof.
  intros Hcols. rewrite (compute_final_score_rows df Hcols).
  eexists. split; [reflexivity |]. simpl rows. split; [| split].
  - unfold has_column at 1. simpl columns.
    destruct (has_column "hallucination_risk_score" df) eqn:E.
    + exact E.
    + apply has_column_app_r.
  - apply length_map.
  - intros i r Hi. eexists. split.
    + apply map_nth_error. exact Hi.
    + simpl. repeat split; reflexivity.
Qed.

Lemma compute_final_score_risk_witness :
  exists out,
    compute_final_score Examples.sample_data = Ok out /\
    has_column "hallucination_risk_score" out = true /\
    List.length (rows out) = List.length (rows Examples.sample_data) /\
    forall (i : nat) (r : Row),
      nth_error (rows Examples.sample_data) i = Some r ->
      exists r',
        nth_error (rows out) i = Some r' /\
        hallucination_risk_score r' =
          PyFloat.np_round2
            ((1 - confidence_score r)
             + PyFloat.of_int64 (hallucination_flag r) * 0.5)%float /\
        hallucination_flag r' = hallucination_flag r /\
        confidence_score r' = confidence_score r /\
        final_label r' = final_label r.
Proof.
  apply (compute_final_score_risk Examples.sample_data). reflexivity.
Defined.

(* ------------------------------------------------------------------ *)
(** ** Grouping *)

Lemma insert_sorted_perm (k : string) (l : list string) :
  Permutation (insert_sorted k l) (k :: l).
Proof.
  induction l as [| x l IH]; simpl.
  - apply Permutation_refl.
  - destruct (String.leb k x).
    + apply Permutation_refl.
    + eapply perm_trans; [apply perm_skip, IH | apply perm_swap].
Qed.

(** Sorting rearranges the keys and nothing else. *)
Lemma sort_perm (l : list string) : Permutation (sort l) l.
Proof.
  induction l as [| x l IH]; simpl.
  - apply perm_nil.
  - eapply perm_trans; [apply insert_sorted_perm | apply perm_skip, IH].
Qed.

Lemma present_names_In (name : string) (names : list pyval) :
  In name (present_names names) <-> In (PyStr name) names.
Proof.
  induction names as [| v names IH]; simpl.
  - tauto.
  - destruct v as [s | |]; simpl; rewrite IH.
    + split; intros [H | H]; auto.
      * left. now f_equal.
      * left. now injection H.
    + split; [auto | intros [H | H]; [discriminate H | exact H]].
    + split; [auto | intros [H | H]; [discriminate H | exact H]].
Qed.

(** The group keys are pairwise distinct. *)
Lemma group_keys_NoDup (df : DataFrame) : NoDup (group_keys df).
Proof.
  unfold group_keys.
  eapply Permutation_NoDup; [apply Permutation_sym, sort_perm |].
  apply NoDup_nodup.
Qed.

(** The group keys are the names that occur in the name column. *)
Lemma group_keys_In (name : string) (df : DataFrame) :
  In name (group_keys df) <-> In (PyStr name) (column model_name df).
Proof.
  unfold group_keys. rewrite <- present_names_In. split; intros H.
  - apply (nodup_In string_dec).
    exact (Permutation_in _ (sort_perm _) H).
  - apply (Permutation_in _ (Permutation_sym (sort_perm _))).
    apply (nodup_In string_dec). exact H.
Qed.

(** With the grouping column and the aggregated columns present, the
    summary is one row per group key. *)
Lemma generate_model_summary_ok (df : DataFrame) :
  has_column "model_name" df = true ->
  forallb (fun c => has_column c df) aggregated_cols = true ->
  generate_model_summary df =
  Ok (map (fun key => summarize key (group key df)) (group_keys df)).
Proof.
  intros Hname Hagg. unfold generate_model_summary.
  rewrite Hname. simpl negb. cbv iota.
  unfold aggregated_cols in *. simpl in Hagg.
  repeat (apply andb_true_iff in Hagg; destruct Hagg as [? Hagg]).
  simpl filter.
  repeat match goal with H : has_column _ df = true |- _ => rewrite H; clear H end.
  reflexivity.
Qed.

(** A summary is returned only by the aggregation of the groups. *)
Lemma generate_model_summary_inv (df : DataFrame) (out : list ModelSummary) :
  generate_model_summary df = Ok out ->
  out = map (fun key => summarize key (group key df)) (group_keys df).
Proof.
  unfold generate_model_summary.
  destruct (negb (has_column "model_name" df)); [discriminate |].
  destruct (filter _ aggregated_cols); [| discriminate].
  intros H. now injection H.
Qed.

(** Every row of a summary is the aggregation of the group of its name. *)
Lemma summary_In (df : DataFrame) (out : list ModelSummary) (s : ModelSummary) :
  generate_model_summary df = Ok out -> In s out ->
  In (summary_model_name s) (group_keys df) /\
  s = summarize (summary_model_name s) (group (summary_model_name s) df).
Proof.
  intros Hout Hs. rewrite (generate_model_summary_inv df out Hout) in Hs.
  apply in_map_iff in Hs. destruct Hs as [key [Hkey Hin]].
  subst s. simpl. split; [exact Hin | reflexivity].
Qed.

Lemma summary_names (df : DataFrame) :
  map summary_model_name
      (map (fun key => summarize key (group key df)) (group_keys df)) =
  group_keys df.
Proof. rewrite map_map. simpl. apply map_id. Qed.

Lemma filter_map_length {X Y : Type} (p : Y -> bool) (f : X -> Y) (l : list X) :
  List.length (filter p (map f l)) = List.length (filter (fun x => p (f x)) l).
Proof.
  induction l as [| x l IH]; simpl.
  - reflexivity.
  - destruct (p (f x)); simpl; now rewrite IH.
Qed.

Lemma filter_all {X : Type} (p : X -> bool) (l : list X) :
  forallb p l = true -> filter p l = l.
Proof.
  induction l as [| x l IH]; simpl; intros H.
  - reflexivity.
  - apply andb_true_iff in H. destruct H as [Hx Hl].
    rewrite Hx. now rewrite IH.
Qed.

Lemma label_counts_le (labels : list pyval) :
  (List.length (filter (fun v => py_eq_str v "hallucinated") labels)
   + List.length (filter (fun v => py_eq_str v "uncertain") labels)
   <= List.length (filter (fun v => negb (isna v)) labels))%nat.
Proof.
  induction labels as [| v labels IH]; [apply Nat.le_refl |].
  cbn [filter].
  destruct v as [s | |]; cbn [py_eq_str isna negb]; try exact IH.
  destruct (String.eqb s "hallucinated") eqn:Eh.
  - apply String.eqb_eq in Eh. subst s.
    change (String.eqb "hallucinated" "uncertain") with false.
    cbn [List.length]. lia.
  - destruct (String.eqb s "uncertain"); cbn [List.length]; lia.
Qed.

(** The labels counted as hallucinated and as uncertain are different
    labels, and none of them is missing. *)
Lemma counts_bounded (labels : list pyval) :
  Series.count_eq labels "hallucinated" + Series.count_eq labels "uncertain"
  <= Series.count labels.
Proof.
  unfold Series.count_eq, Series.count.
  rewrite <- Nat2Z.inj_add. apply Nat2Z.inj_le, label_counts_le.
Qed.

(* ------------------------------------------------------------------ *)
(** ** The model summary *)

(** C4, as the code has it: in every row of the summary the hallucination
    rate is the quotient of the hallucinated count by the total, rounded to
    two decimal places. *)
Theorem hallucination_rate_rounded (df : DataFrame) (out : list ModelSummary)
    (s : ModelSummary) :
  generate_model_summary df = Ok out ->
  In s out ->
  hallucination_rate s =
  PyFloat.np_round2 (PyFloat.of_int64 (hallucinated_count s) /
                     PyFloat.of_int64 (total_responses s))%float.
Proof.
  intros Hout Hs. destruct (summary_In df out s Hout Hs) as [_ Heq].
  rewrite Heq. reflexivity.
Qed.

Lemma hallucination_rate_rounded_witness :
  hallucination_rate
    (summarize "Model-A" (group "Model-A" Examples.one_in_three)) =
  PyFloat.np_round2
    (PyFloat.of_int64
       (hallucinated_count
          (summarize "Model-A" (group "Model-A" Examples.one_in_three))) /
     PyFloat.of_int64
       (total_responses
          (summarize "Model-A" (group "Model-A" Examples.one_in_three))))%float.
Proof.
  apply (hallucination_rate_rounded Examples.one_in_three
           [summarize "Model-A" (group "Model-A" Examples.one_in_three)]).
  - reflexivity.
  - left. reflexivity.
Defined.

(** C4, as stated, fails: for one model with one hallucinated response in
    three the rate is 0.33, which is not the quotient of 1 by 3. *)
Lemma hallucination_rate_not_exact_quotient :
  exists s,
    generate_model_summary Examples.one_in_three = Ok [s] /\
    hallucinated_count s = 1 /\
    total_responses s = 3 /\
    hallucination_rate s = 0.33%float /\
    hallucination_rate s <>
      (PyFloat.of_int64 (hallucinated_count s) /
       PyFloat.of_int64 (total_responses s))%float.
Proof.
  exists (summarize "Model-A" (group "Model-A" Examples.one_in_three)).
  split; [reflexivity |].
  split; [reflexivity |].
  split; [reflexivity |].
  split; [vm_compute; reflexivity |].
  float_discriminate.
Qed.

(** C7: in every row of the summary the hallucinated and the uncertain
    counts together do not exceed the total. *)
Theorem summary_counts_bounded (df : DataFrame) (out : list ModelSummary)
    (s : ModelSummary) :
  generate_model_summary df = Ok out ->
  In s out ->
  hallucinated_count s + uncertain_count s <= total_responses s.
Proof.
  intros Hout Hs. destruct (summary_In df out s Hout Hs) as [_ Heq].
  rewrite Heq. simpl. apply counts_bounded.
Qed.

Lemma summary_counts_bounded_witness :
  hallucinated_count (summarize "Model-A" (group "Model-A" Examples.one_in_three))
  + uncertain_count (summarize "Model-A" (group "Model-A" Examples.one_in_three))
  <= total_responses (summarize "Model-A" (group "Model-A" Examples.one_in_three)).
Proof.
  apply (summary_counts_bounded Examples.one_in_three
           [summarize "Model-A" (group "Model-A" Examples.one_in_three)]).
  - reflexivity.
  - left. reflexivity.
Defined.

(** C5, as the code has it: for a frame with the name column and the three
    aggregated columns, the summary has exactly one row for each distinct
    name that occurs in the name column, a missing name apart: no name
    twice and none left out.  In the row of a name, with its group the rows
    of that name, [total_responses] counts the rows of the group whose
    label is not missing (all of them when no label is missing), and
    [hallucinated_count] and [uncertain_count] count the rows whose label
    is "hallucinated" and "uncertain". *)
Theorem one_summary_per_model_name (df : DataFrame) :
  has_column "model_name" df = true ->
  forallb (fun c => has_column c df) aggregated_cols = true ->
  exists out,
    generate_model_summary df = Ok out /\
    NoDup (map summary_model_name out) /\
    (forall name : string,
        In name (map summary_model_name out) <->
        In (PyStr name) (column model_name df)) /\
    forall s : ModelSummary,
      In s out ->
      let g := filter (fun r => py_eq_str (model_name r) (summary_model_name s))
                      (rows df) in
      total_responses s =
        Z.of_nat (List.length (filter (fun r => negb (isna (final_label r))) g)) /\
      (forallb (fun r => negb (isna (final_label r))) g = true ->
       total_responses s = Z.of_nat (List.length g)) /\
      hallucinated_count s =
        Z.of_nat (List.length
                    (filter (fun r => py_eq_str (final_label r) "hallucinated") g)) /\
      uncertain_count s =
        Z.of_nat (List.length
                    (filter (fun r => py_eq_str (final_label r) "uncertain") g)).
Proof.
  intros Hname Hagg.
  pose proof (generate_model_summary_ok df Hname Hagg) as Hout.
  eexists. split; [exact Hout |].
  rewrite summary_names. split; [apply group_keys_NoDup |].
  split; [intros name; apply group_keys_In |].
  intros s Hs. destruct (summary_In df _ s Hout Hs) as [_ Heq].
  cbv zeta. fold (group (summary_model_name s) df).
  remember (summary_model_name s) as key eqn:Ekey.
  clear Ekey Hs. subst s. simpl.
  unfold Series.count, Series.count_eq. rewrite !filter_map_length.
  repeat split.
  intros Hall. now rewrite (filter_all _ _ Hall).
Qed.

Lemma one_summary_per_model_name_witness :
  exists out,
    generate_model_summary Examples.scored_sample = Ok out /\
    NoDup (map summary_model_name out) /\
    (forall name : string,
        In name (map summary_model_name out) <->
        In (PyStr name) (column model_name Examples.scored_sample)) /\
    forall s : ModelSummary,
      In s out ->
      let g := filter (fun r => py_eq_str (model_name r) (summary_model_name s))
                      (rows Examples.scored_sample) in
      total_responses s =
        Z.of_nat (List.length (filter (fun r => negb (isna (final_label r))) g)) /\
      (forallb (fun r => negb (isna (final_label r))) g = true ->
       total_responses s = Z.of_nat (List.length g)) /\
      hallucinated_count s =
        Z.of_nat (List.length
                    (filter (fun r => py_eq_str (final_label r) "hallucinated") g)) /\
      uncertain_count s =
        Z.of_nat (List.length
                    (filter (fun r => py_eq_str (final_label r) "uncertain") g)).
Proof.
  apply (one_summary_per_model_name Examples.scored_sample); reflexivity.
Defined.

(** C5, as stated, fails: for one model with two rows, the label of one of
    them missing, [total_responses] is 1, which is not the row count of
    the group. *)
Lemma total_responses_not_row_count :
  exists s,
    generate_model_summary Examples.missing_label = Ok [s] /\
    total_responses s = 1 /\
    List.length
      (filter (fun r => py_eq_str (model_name r) (summary_model_name s))
              (rows Examples.missing_label)) = 2%nat.
Proof.
  exists (summarize "Model-A" (group "Model-A" Examples.missing_label)).
  repeat split.
Qed.

(* ------------------------------------------------------------------ *)
(** ** Schema checks *)

(** With the name column present and an aggregated column absent, the
    aggregation raises [KeyError]. *)
Lemma generate_model_summary_key_error (df : DataFrame) :
  has_column "model_name" df = true ->
  forallb (fun c => has_column c df) aggregated_cols = false ->
  exists missing,
    missing <> [] /\ generate_model_summary df = Raise (KeyError missing).
Proof.
  intros Hname Hagg. unfold generate_model_summary.
  rewrite Hname. simpl negb. cbv iota.
  destruct (filter (fun c => negb (has_column c df)) aggregated_cols)
    as [| c missing] eqn:E.
  - exfalso.
    assert (Hall : forallb (fun c => has_column c df) aggregated_cols = true).
    { apply forallb_forall. intros c Hc.
      destruct (has_column c df) eqn:Ec; [reflexivity |].
      assert (Hin : In c (filter (fun c => negb (has_column c df)) aggregated_cols)).
      { apply filter_In. split; [exact Hc | now rewrite Ec]. }
      rewrite E in Hin. destruct Hin. }
    congruence.
  - exists (c :: missing). split; [discriminate | reflexivity].
Qed.

(** C10: the schema check of [generate_model_summary] is on the name
    column only.  Some frame with the name column and without the
    confidence column passes it, and the call then fails in the
    aggregation with [KeyError], not with the schema error; so does every
    frame with the name column that lacks the confidence or the risk
    column. *)
Theorem summary_schema_check_covers_model_name_only :
  (exists df,
      has_column "model_name" df = true /\
      has_column "confidence_score" df = false /\
      (exists missing, generate_model_summary df = Raise (KeyError missing)) /\
      is_schema_error (generate_model_summary df) = false) /\
  (forall df,
      has_column "model_name" df = true ->
      has_column "confidence_score" df = false \/
      has_column "hallucination_risk_score" df = false ->
      (exists missing, generate_model_summary df = Raise (KeyError missing)) /\
      is_schema_error (generate_model_summary df) = false).
Proof.
  assert (Hgen : forall df,
      has_column "model_name" df = true ->
      has_column "confidence_score" df = false \/
      has_column "hallucination_risk_score" df = false ->
      (exists missing, generate_model_summary df = Raise (KeyError missing)) /\
      is_schema_error (generate_model_summary df) = false).
  { intros df Hname Hlack.
    destruct (generate_model_summary_key_error df Hname) as [missing [_ Heq]].
    - unfold aggregated_cols. simpl.
      destruct Hlack as [H | H]; rewrite H.
      + reflexivity.
      + destruct (has_column "confidence_score" df),
          (has_column "final_label" df); reflexivity.
    - rewrite Heq. split; [now exists missing | reflexivity]. }
  split; [| exact Hgen].
  exists Examples.names_and_labels.
  split; [reflexivity |]. split; [reflexivity |].
  apply Hgen; [reflexivity | left; reflexivity].
Qed.








(* ================================================================== *)
(** * Further properties: strings *)
(* ================================================================== *)

Open Scope list_scope.

Lemma lstrip_chars_length (l : list ascii) :
  (List.length (PyString.lstrip_chars l) <= List.length l)%nat.
Proof.
  induction l as [| c l IH]; simpl.
  - apply Nat.le_refl.
  - destruct (PyString.isspace c); simpl; lia.
Qed.

(** A list that [lstrip] leaves alone does not start with whitespace. *)
Lemma lstrip_chars_fixed_head (c : ascii) (l : list ascii) :
  PyString.lstrip_chars (c :: l) = c :: l -> PyString.isspace c = false.
Proof.
  simpl. destruct (PyString.isspace c); [| reflexivity].
  intros H. pose proof (lstrip_chars_length l) as Hlen.
  rewrite H in Hlen. simpl in Hlen. lia.
Qed.

Lemma lstrip_chars_head (c : ascii) (l : list ascii) :
  PyString.isspace c = false -> PyString.lstrip_chars (c :: l) = c :: l.
Proof. intros H. simpl. now rewrite H. Qed.

Lemma lstrip_chars_idempotent (l : list ascii) :
  PyString.lstrip_chars (PyString.lstrip_chars l) = PyString.lstrip_chars l.
Proof.
  induction l as [| c l IH]; simpl.
  - reflexivity.
  - destruct (PyString.isspace c) eqn:E; [exact IH |].
    simpl. now rewrite E.
Qed.

(** [lstrip] removes a prefix of whitespace. *)
Lemma lstrip_chars_split (l : list ascii) :
  exists w, forallb PyString.isspace w = true /\ l = w ++ PyString.lstrip_chars l.
Proof.
  induction l as [| c l [w [Hw Hl]]]; simpl.
  - exists []. split; reflexivity.
  - destruct (PyString.isspace c) eqn:E.
    + exists (c :: w). simpl. rewrite E, Hw. split; [reflexivity |].
      now rewrite <- Hl.
    + exists []. split; reflexivity.
Qed.

(** [rstrip] removes a suffix of whitespace. *)
Lemma rstrip_chars_split (l : list ascii) :
  exists w, forallb PyString.isspace w = true /\ l = PyString.rstrip_chars l ++ w.
Proof.
  destruct (lstrip_chars_split (rev l)) as [w [Hw Hl]].
  exists (rev w). split.
  - rewrite forallb_forall in *. intros c Hc. apply Hw. now apply in_rev.
  - unfold PyString.rstrip_chars. rewrite <- rev_app_distr, <- Hl.
    symmetry. apply rev_involutive.
Qed.

Lemma rstrip_chars_idempotent (l : list ascii) :
  PyString.rstrip_chars (PyString.rstrip_chars l) = PyString.rstrip_chars l.
Proof.
  unfold PyString.rstrip_chars.
  now rewrite rev_involutive, lstrip_chars_idempotent.
Qed.

(** [rstrip] keeps a list that does not start with whitespace that way. *)
Lemma lstrip_rstrip_fixed (l : list ascii) :
  PyString.lstrip_chars l = l ->
  PyString.lstrip_chars (PyString.rstrip_chars l) = PyString.rstrip_chars l.
Proof.
  intros Hfix. destruct (rstrip_chars_split l) as [w [_ Hl]].
  destruct (PyString.rstrip_chars l) as [| c x]; [reflexivity |].
  apply lstrip_chars_head.
  rewrite Hl in Hfix. simpl app in Hfix.
  exact (lstrip_chars_fixed_head c _ Hfix).
Qed.

(** A list ending in a character that is not whitespace is left alone by
    [rstrip]. *)
Lemma rstrip_chars_last (l : list ascii) (c : ascii) :
  PyString.isspace c = false ->
  PyString.rstrip_chars (l ++ [c]) = l ++ [c].
Proof.
  intros H. unfold PyString.rstrip_chars.
  rewrite rev_app_distr. simpl rev at 2. simpl app.
  rewrite (lstrip_chars_head c _ H). simpl. now rewrite rev_involutive.
Qed.

(** A non-empty list that [rstrip] leaves alone ends in a character that is
    not whitespace. *)
Lemma rstrip_chars_fixed_last (l : list ascii) :
  PyString.rstrip_chars l = l ->
  l = [] \/ exists x c, l = x ++ [c] /\ PyString.isspace c = false.
Proof.
  intros Hfix. destruct (rev l) as [| c r] eqn:E.
  - left. apply (f_equal (@rev ascii)) in E. now rewrite rev_involutive in E.
  - right. exists (rev r), c.
    assert (Hl : l = rev r ++ [c]).
    { apply (f_equal (@rev ascii)) in E. now rewrite rev_involutive in E. }
    split; [exact Hl |].
    unfold PyString.rstrip_chars in Hfix. rewrite E in Hfix.
    apply (f_equal (@rev ascii)) in Hfix.
    rewrite rev_involutive, E in Hfix.
    exact (lstrip_chars_fixed_head c r Hfix).
Qed.

(** Stripping twice is stripping once. *)
Lemma strip_idempotent (s : string) :
  PyString.strip (PyString.strip s) = PyString.strip s.
Proof.
  unfold PyString.strip. rewrite list_ascii_of_string_of_list_ascii.
  rewrite lstrip_rstrip_fixed by apply lstrip_chars_idempotent.
  now rewrite rstrip_chars_idempotent.
Qed.

Lemma isspace_lower_char (c : ascii) :
  PyString.isspace (PyString.lower_char c) = PyString.isspace c.
Proof.
  destruct c as [b0 b1 b2 b3 b4 b5 b6 b7].
  destruct b0, b1, b2, b3, b4, b5, b6, b7; reflexivity.
Qed.

Lemma isdigit_lower_char (c : ascii) :
  PyString.isdigit (PyString.lower_char c) = PyString.isdigit c.
Proof.
  destruct c as [b0 b1 b2 b3 b4 b5 b6 b7].
  destruct b0, b1, b2, b3, b4, b5, b6, b7; reflexivity.
Qed.

Lemma isspace_not_isdigit (c : ascii) :
  PyString.isspace c = true -> PyString.isdigit c = false.
Proof.
  destruct c as [b0 b1 b2 b3 b4 b5 b6 b7].
  destruct b0, b1, b2, b3, b4, b5, b6, b7; intros H;
    first [reflexivity | discriminate H].
Qed.

Lemma lower_chars (s : string) :
  list_ascii_of_string (PyString.lower s) =
  map PyString.lower_char (list_ascii_of_string s).
Proof. induction s as [| c s IH]; simpl; congruence. Qed.

Lemma string_of_map_lower (l : list ascii) :
  string_of_list_ascii (map PyString.lower_char l) =
  PyString.lower (string_of_list_ascii l).
Proof. induction l as [| c l IH]; simpl; congruence. Qed.

Lemma lstrip_chars_lower (l : list ascii) :
  PyString.lstrip_chars (map PyString.lower_char l) =
  map PyString.lower_char (PyString.lstrip_chars l).
Proof.
  induction l as [| c l IH]; simpl.
  - reflexivity.
  - rewrite isspace_lower_char. now destruct (PyString.isspace c).
Qed.

(** Lowercasing and stripping commute: no letter becomes whitespace. *)
Lemma strip_lower (s : string) :
  PyString.strip (PyString.lower s) = PyString.lower (PyString.strip s).
Proof.
  unfold PyString.strip, PyString.rstrip_chars.
  rewrite lower_chars, lstrip_chars_lower, <- map_rev, lstrip_chars_lower,
    <- map_rev.
  apply string_of_map_lower.
Qed.

Lemma list_ascii_of_string_app (s t : string) :
  list_ascii_of_string (s ++ t)%string =
  list_ascii_of_string s ++ list_ascii_of_string t.
Proof. induction s as [| c s IH]; simpl; congruence. Qed.

Lemma lower_app (s t : string) :
  PyString.lower (s ++ t)%string = (PyString.lower s ++ PyString.lower t)%string.
Proof. induction s as [| c s IH]; simpl; congruence. Qed.

Lemma search_digit_existsb (s : string) :
  PyString.search_digit s = existsb PyString.isdigit (list_ascii_of_string s).
Proof. induction s as [| c s IH]; simpl; congruence. Qed.

Lemma blank_no_digit (w : list ascii) :
  forallb PyString.isspace w = true -> existsb PyString.isdigit w = false.
Proof.
  induction w as [| c w IH]; simpl; intros H.
  - reflexivity.
  - apply andb_true_iff in H. destruct H as [Hc Hw].
    now rewrite (isspace_not_isdigit c Hc), IH.
Qed.

Lemma search_digit_lower (s : string) :
  PyString.search_digit (PyString.lower s) = PyString.search_digit s.
Proof.
  induction s as [| c s IH]; simpl.
  - reflexivity.
  - now rewrite isdigit_lower_char, IH.
Qed.

Lemma search_digit_strip (s : string) :
  PyString.search_digit (PyString.strip s) = PyString.search_digit s.
Proof.
  rewrite !search_digit_existsb. unfold PyString.strip.
  rewrite list_ascii_of_string_of_list_ascii.
  destruct (lstrip_chars_split (list_ascii_of_string s)) as [w [Hw Hs]].
  destruct (rstrip_chars_split (PyString.lstrip_chars (list_ascii_of_string s)))
    as [w' [Hw' Hs']].
  rewrite Hs at 2. rewrite Hs' at 2.
  rewrite !existsb_app, (blank_no_digit w Hw), (blank_no_digit w' Hw').
  now rewrite orb_false_r.
Qed.

Lemma prefix_app (p s t : string) :
  String.prefix p s = true -> String.prefix p (s ++ t)%string = true.
Proof.
  revert s. induction p as [| c p IH]; intros s H.
  - destruct s; [destruct t |]; reflexivity.
  - destruct s as [| d s]; simpl in *; [discriminate |].
    destruct (ascii_dec c d); [now apply IH | discriminate].
Qed.

Lemma contains_app_r (p s t : string) :
  PyString.contains p s = true -> PyString.contains p (s ++ t)%string = true.
Proof.
  induction s as [| c s IH]; intros H.
  - simpl in H. rewrite orb_false_r in H.
    destruct p; [| discriminate H].
    destruct t; reflexivity.
  - cbn [PyString.contains] in H. apply orb_true_iff in H.
    change (String c s ++ t)%string with (String c (s ++ t)%string).
    cbn [PyString.contains]. apply orb_true_iff. destruct H as [H | H].
    + left. exact (prefix_app p (String c s) t H).
    + right. now apply IH.
Qed.

Lemma contains_app_l (p s t : string) :
  PyString.contains p s = true -> PyString.contains p (t ++ s)%string = true.
Proof.
  intros H. induction t as [| c t IH]; [exact H |].
  change (String c t ++ s)%string with (String c (t ++ s)%string).
  cbn [PyString.contains]. rewrite IH. apply orb_true_r.
Qed.

(* ================================================================== *)
(** * Further properties: the detector *)
(* ================================================================== *)

(** X1: a response is flagged exactly when its normalized text has an
    uncertainty phrase together with a digit or a length under 30; without
    an uncertainty phrase no response is flagged.  It is labelled
    "uncertain" exactly when it has a phrase and neither of the other two,
    or no phrase and both of them. *)
Theorem flag_needs_uncertainty_phrase (v : pyval) :
  (fst (fst (score_response v)) = 1 <->
   contains_uncertainty (normalize v) = true /\
   (has_numeric_claim (normalize v) ||
    (String.length (normalize v) <? 30)%nat) = true) /\
  (snd (score_response v) = "uncertain" <->
   contains_uncertainty (normalize v) =
   negb (has_numeric_claim (normalize v)) /\
   has_numeric_claim (normalize v) =
   (String.length (normalize v) <? 30)%nat).
Proof.
  rewrite score_response_cases.
  destruct (contains_uncertainty (normalize v)),
    (has_numeric_claim (normalize v)),
    (String.length (normalize v) <? 30)%nat; simpl;
    (split; split; try (intros [? ?]); try intros ?;
     try discriminate; try reflexivity; try (split; reflexivity)).
Qed.

(** X2: for every input the flag is 0 or 1 and is 1 exactly when the label
    is "hallucinated", the label is one of the three labels, and the
    confidence is one of 1.0, 0.8, 0.7, 0.6, 0.5, 0.4, 0.3 and 0.1, so it
    lies between 0.1 and 1. *)
Theorem score_response_range (v : pyval) :
  (fst (fst (score_response v)) = 0 \/ fst (fst (score_response v)) = 1) /\
  (fst (fst (score_response v)) = 1 <->
   snd (score_response v) = "hallucinated") /\
  In (snd (score_response v)) ["accurate"; "uncertain"; "hallucinated"] /\
  In (snd (fst (score_response v)))
     [1.0; 0.8; 0.7; 0.6; 0.5; 0.4; 0.3; 0.1]%float /\
  (0.1 <=? snd (fst (score_response v)))%float = true /\
  (snd (fst (score_response v)) <=? 1.0)%float = true.
Proof.
  rewrite score_response_cases.
  destruct (contains_uncertainty (normalize v)),
    (has_numeric_claim (normalize v)),
    (String.length (normalize v) <? 30)%nat; cbn [fst snd];
    (split; [auto | split; [split; intros H; first [reflexivity | discriminate H] |]]);
    (split; [simpl; tauto | split; [simpl; tauto | split; vm_compute; reflexivity]]).
Qed.

(** The normalized text is already normalized. *)
Lemma normalize_idempotent (v : pyval) :
  normalize (PyStr (normalize v)) = normalize v.
Proof.
  unfold normalize. simpl py_str.
  now rewrite strip_lower, strip_idempotent, lower_idempotent.
Qed.

Lemma lstrip_chars_blank_app (w l : list ascii) :
  forallb PyString.isspace w = true ->
  PyString.lstrip_chars (w ++ l) = PyString.lstrip_chars l.
Proof.
  induction w as [| c w IH]; simpl; intros H.
  - reflexivity.
  - apply andb_true_iff in H. destruct H as [Hc Hw].
    rewrite Hc. now apply IH.
Qed.

Lemma rstrip_chars_app_blank (l w : list ascii) :
  forallb PyString.isspace w = true ->
  PyString.rstrip_chars (l ++ w) = PyString.rstrip_chars l.
Proof.
  intros H. unfold PyString.rstrip_chars.
  rewrite rev_app_distr, lstrip_chars_blank_app; [reflexivity |].
  rewrite forallb_forall in *. intros c Hc. apply H. now apply in_rev.
Qed.

(** Whitespace around a text is stripped with the text's own. *)
Lemma strip_padding (w s w' : string) :
  forallb PyString.isspace (list_ascii_of_string w) = true ->
  forallb PyString.isspace (list_ascii_of_string w') = true ->
  PyString.strip (w ++ s ++ w')%string = PyString.strip s.
Proof.
  intros Hw Hw'. unfold PyString.strip. f_equal.
  rewrite !list_ascii_of_string_app, (lstrip_chars_blank_app _ _ Hw).
  destruct (lstrip_chars_split (list_ascii_of_string s)) as [u [Hu Hs]].
  destruct (PyString.lstrip_chars (list_ascii_of_string s)) as [| c x] eqn:E.
  - rewrite app_nil_r in Hs. rewrite Hs.
    rewrite (lstrip_chars_blank_app _ _ Hu).
    now rewrite (lstrip_chars_blank _ Hw').
  - rewrite Hs at 1. rewrite <- app_assoc, (lstrip_chars_blank_app _ _ Hu).
    simpl app.
    assert (Hc : PyString.isspace c = false).
    { apply (lstrip_chars_fixed_head c x).
      rewrite <- E. apply lstrip_chars_idempotent. }
    rewrite (lstrip_chars_head c _ Hc).
    change (c :: x ++ list_ascii_of_string w')
      with ((c :: x) ++ list_ascii_of_string w').
    now apply rstrip_chars_app_blank.
Qed.

(** X3: the classification does not see the case of the letters nor the
    whitespace around the text: lowercasing the text, stripping it, or
    padding it with whitespace on either side leaves the result of
    [score_response] unchanged. *)
Theorem score_response_ignores_case_and_padding (s : string) :
  score_response (PyStr (PyString.lower s)) = score_response (PyStr s) /\
  score_response (PyStr (PyString.strip s)) = score_response (PyStr s) /\
  forall w w' : string,
    forallb PyString.isspace (list_ascii_of_string w) = true ->
    forallb PyString.isspace (list_ascii_of_string w') = true ->
    score_response (PyStr (w ++ s ++ w')%string) = score_response (PyStr s).
Proof.
  unfold score_response, normalize. simpl py_str. split; [| split].
  - now rewrite strip_lower, lower_idempotent.
  - now rewrite strip_idempotent.
  - intros w w' Hw Hw'. now rewrite (strip_padding w s w' Hw Hw').
Qed.

(** X4: a text that contains a flagged text is flagged for at least the
    same checks: an uncertainty phrase or a digit found in a text is found
    in every text that has it as a part. *)
Theorem checks_survive_embedding (a s b : string) :
  (contains_uncertainty s = true ->
   contains_uncertainty (a ++ s ++ b)%string = true) /\
  (has_numeric_claim s = true ->
   has_numeric_claim (a ++ s ++ b)%string = true).
Proof.
  split.
  - unfold contains_uncertainty. rewrite !lower_app. intros H.
    apply existsb_exists in H. destruct H as [phrase [Hin Hc]].
    apply existsb_exists. exists phrase. split; [exact Hin |].
    now apply contains_app_l, contains_app_r.
  - unfold has_numeric_claim. rewrite !search_digit_existsb.
    rewrite !list_ascii_of_string_app, !existsb_app. intros H.
    rewrite H. now rewrite orb_true_r.
Qed.

(** X5: normalization neither adds nor removes a digit: the numeric check
    on the normalized text is the check on the text as given. *)
Theorem numeric_claim_unaffected_by_normalization (v : pyval) :
  has_numeric_claim (normalize v) = has_numeric_claim (py_str v).
Proof.
  unfold has_numeric_claim, normalize.
  now rewrite search_digit_lower, search_digit_strip.
Qed.

(* ================================================================== *)
(** * Further properties: the loader *)
(* ================================================================== *)

Lemma collapse_whitespace_idempotent (b : bool) (l : list ascii) :
  Str.collapse_whitespace b (Str.collapse_whitespace b l) =
  Str.collapse_whitespace b l.
Proof.
  revert b. induction l as [| c l IH]; intros b; simpl.
  - reflexivity.
  - destruct (PyString.isspace c) eqn:E.
    + destruct b; [apply IH |].
      simpl. change (PyString.isspace " "%char) with true. cbv iota.
      now rewrite IH.
    + simpl. rewrite E. now rewrite IH.
Qed.

(** After the collapse the only whitespace character left is the space. *)
Lemma collapse_whitespace_spaces (b : bool) (l : list ascii) (c : ascii) :
  In c (Str.collapse_whitespace b l) -> PyString.isspace c = true ->
  c = " "%char.
Proof.
  revert b. induction l as [| d l IH]; intros b; simpl; [tauto |].
  destruct (PyString.isspace d) eqn:E.
  - destruct b; [apply IH |].
    intros [H | H] Hc; [now symmetry | now apply (IH true)].
  - intros [H | H] Hc; [subst d; congruence | now apply (IH false)].
Qed.

Lemma collapse_whitespace_last (b : bool) (l : list ascii) (c : ascii) :
  PyString.isspace c = false ->
  Str.collapse_whitespace b (l ++ [c]) = Str.collapse_whitespace b l ++ [c].
Proof.
  intros Hc. revert b. induction l as [| d l IH]; intros b; simpl.
  - now rewrite Hc.
  - destruct (PyString.isspace d); [destruct b |]; simpl; now rewrite IH.
Qed.

(** The collapse keeps a stripped list stripped. *)
Lemma collapse_whitespace_stripped (l : list ascii) :
  PyString.lstrip_chars l = l -> PyString.rstrip_chars l = l ->
  PyString.rstrip_chars
    (PyString.lstrip_chars (Str.collapse_whitespace false l)) =
  Str.collapse_whitespace false l.
Proof.
  intros Hl Hr.
  assert (Hleft : PyString.lstrip_chars (Str.collapse_whitespace false l) =
                  Str.collapse_whitespace false l).
  { destruct l as [| c x]; [reflexivity |].
    pose proof (lstrip_chars_fixed_head c x Hl) as Hc.
    simpl. rewrite Hc. simpl. now rewrite Hc. }
  rewrite Hleft.
  destruct (rstrip_chars_fixed_last l Hr) as [-> | [x [c [-> Hc]]]];
    [reflexivity |].
  rewrite (collapse_whitespace_last false x c Hc).
  now apply rstrip_chars_last.
Qed.

(** The stripped characters of a text are fixed by both strips. *)
Lemma strip_chars_fixed (l : list ascii) :
  let t := PyString.rstrip_chars (PyString.lstrip_chars l) in
  PyString.lstrip_chars t = t /\ PyString.rstrip_chars t = t.
Proof.
  cbv zeta. split.
  - apply lstrip_rstrip_fixed, lstrip_chars_idempotent.
  - apply rstrip_chars_idempotent.
Qed.

(** The text that the loader stores is unchanged by a second strip and by
    a second collapse. *)
Lemma cleaned_text_fixed (s : string) :
  let t := Str.replace_whitespace (PyString.strip s) in
  PyString.strip t = t /\ Str.replace_whitespace t = t.
Proof.
  cbv zeta. unfold Str.replace_whitespace, PyString.strip.
  rewrite !list_ascii_of_string_of_list_ascii.
  destruct (strip_chars_fixed (list_ascii_of_string s)) as [Hl Hr].
  split; f_equal.
  - now apply collapse_whitespace_stripped.
  - apply collapse_whitespace_idempotent.
Qed.

(** Assigning a column computed row by row from the rows of the frame. *)
Lemma assign_self {A : Type} (name : string) (set : Row -> A -> Row)
    (cols : list string) (g : Row -> A) (l : list Row) :
  assign name set (mkFrame cols l) (map g l) =
  mkFrame (if existsb (String.eqb name) cols then cols else cols ++ [name])
          (map (fun r => set r (g r)) l).
Proof.
  pose proof (assign_map name set cols (fun r => r) g l) as H.
  now rewrite map_id in H.
Qed.

(** The rows that [clean_responses] returns. *)
Lemma clean_responses_ok (df : DataFrame) :
  has_column "response_text" df = true ->
  DataLoader.clean_responses df =
  Ok (mkFrame (columns df)
        (filter (fun r => Str.len_gt 10 (response_text r))
           (map (fun r =>
                   set_response_text r
                     (PyStr (Str.replace_whitespace
                               (PyString.strip (py_str (response_text r))))))
                (rows df)))).
Proof.
  intros Hcol. destruct df as [cols rs].
  unfold DataLoader.clean_responses. rewrite Hcol. simpl negb. cbv iota zeta.
  unfold column, Series.apply. cbn [rows]. rewrite !map_map.
  rewrite assign_self.
  unfold has_column in Hcol. cbn [columns] in Hcol. rewrite Hcol.
  reflexivity.
Qed.

Lemma clean_responses_inv (df out : DataFrame) :
  DataLoader.clean_responses df = Ok out ->
  has_column "response_text" df = true.
Proof.
  unfold DataLoader.clean_responses.
  destruct (has_column "response_text" df); [reflexivity | discriminate].
Qed.

(** X6: every row that [clean_responses] returns holds a text (never a
    missing value) that is longer than 10 characters, has no whitespace at
    either end, and whose only whitespace characters are single spaces: a
    second strip or a second collapse would not change it. *)
Theorem clean_responses_texts (df out : DataFrame) (r : Row) :
  DataLoader.clean_responses df = Ok out ->
  In r (rows out) ->
  exists t : string,
    response_text r = PyStr t /\
    (10 < String.length t)%nat /\
    PyString.strip t = t /\
    Str.replace_whitespace t = t /\
    forall c : ascii,
      In c (list_ascii_of_string t) -> PyString.isspace c = true ->
      c = " "%char.
Proof.
  intros Hout Hr.
  rewrite (clean_responses_ok df (clean_responses_inv df out Hout)) in Hout.
  injection Hout as <-. simpl rows in Hr.
  apply filter_In in Hr. destruct Hr as [Hin Hlen].
  apply in_map_iff in Hin. destruct Hin as [r0 [<- _]].
  simpl in Hlen. eexists. split; [reflexivity |].
  split; [now apply Nat.ltb_lt |].
  destruct (cleaned_text_fixed (py_str (response_text r0))) as [Hs Hc].
  split; [exact Hs |]. split; [exact Hc |].
  intros c Hin Hsp. unfold Str.replace_whitespace in Hin.
  rewrite list_ascii_of_string_of_list_ascii in Hin.
  exact (collapse_whitespace_spaces _ _ c Hin Hsp).
Qed.

Lemma clean_responses_texts_witness :
  exists t : string,
    response_text (mkRow (PyStr "It is approximately 42.") (PyStr "Model-A")
                         0 0 PyNone 0) = PyStr t /\
    (10 < String.length t)%nat /\
    PyString.strip t = t /\
    Str.replace_whitespace t = t /\
    forall c : ascii,
      In c (list_ascii_of_string t) -> PyString.isspace c = true ->
      c = " "%char.
Proof.
  apply (clean_responses_texts Examples.loaded_responses
           Examples.cleaned_responses).
  - reflexivity.
  - left. reflexivity.
Defined.

Lemma filter_idempotent {X : Type} (p : X -> bool) (l : list X) :
  filter p (filter p l) = filter p l.
Proof.
  induction l as [| x l IH]; simpl.
  - reflexivity.
  - destruct (p x) eqn:E; simpl; [rewrite E |]; now rewrite ?IH.
Qed.

Lemma map_fixed {X : Type} (f : X -> X) (l : list X) :
  (forall x, In x l -> f x = x) -> map f l = l.
Proof.
  induction l as [| x l IH]; simpl; intros H.
  - reflexivity.
  - rewrite H by now left. rewrite IH; [reflexivity |].
    intros y Hy. apply H. now right.
Qed.

(** X7: cleaning is idempotent: [clean_responses] applied to a frame that
    it returned returns that frame again. *)
Theorem clean_responses_idempotent (df out : DataFrame) :
  DataLoader.clean_responses df = Ok out ->
  DataLoader.clean_responses out = Ok out.
Proof.
  intros Hout. pose proof (clean_responses_inv df out Hout) as Hcol.
  rewrite (clean_responses_ok df Hcol) in Hout. injection Hout as <-.
  rewrite clean_responses_ok by exact Hcol. cbn [columns rows].
  do 2 f_equal.
  rewrite map_fixed; [apply filter_idempotent |].
  intros r Hr. apply filter_In in Hr. destruct Hr as [Hin _].
  apply in_map_iff in Hin. destruct Hin as [r0 [<- _]].
  unfold set_response_text. cbn [response_text model_name hallucination_flag
    confidence_score final_label hallucination_risk_score py_str].
  destruct (cleaned_text_fixed (py_str (response_text r0))) as [Hs Hc].
  now rewrite Hs, Hc.
Qed.

Lemma clean_responses_idempotent_witness :
  DataLoader.clean_responses Examples.cleaned_responses =
  Ok Examples.cleaned_responses.
Proof.
  apply (clean_responses_idempotent Examples.loaded_responses).
  reflexivity.
Defined.

(** X8: [clean_responses] raises the schema error exactly when the text
    column is absent.  Otherwise it succeeds, keeps the columns, adds no
    row, and every row it returns is a row of the input whose text is not
    missing, with the text cleaned and every other cell as it was: a
    missing response is always dropped. *)
Theorem clean_responses_keeps_cleaned_rows (df : DataFrame) :
  is_schema_error (DataLoader.clean_responses df) =
  negb (has_column "response_text" df) /\
  (has_column "response_text" df = true ->
   exists out,
     DataLoader.clean_responses df = Ok out /\
     columns out = columns df /\
     (List.length (rows out) <= List.length (rows df))%nat /\
     forall r, In r (rows out) ->
       exists r0,
         In r0 (rows df) /\
         isna (response_text r0) = false /\
         response_text r =
           PyStr (Str.replace_whitespace
                    (PyString.strip (py_str (response_text r0)))) /\
         model_name r = model_name r0 /\
         hallucination_flag r = hallucination_flag r0 /\
         confidence_score r = confidence_score r0 /\
         final_label r = final_label r0 /\
         hallucination_risk_score r = hallucination_risk_score r0).
Proof.
  split.
  - unfold DataLoader.clean_responses.
    destruct (has_column "response_text" df); reflexivity.
  - intros Hcol. rewrite (clean_responses_ok df Hcol).
    eexists. split; [reflexivity |]. cbn [columns rows].
    split; [reflexivity |]. split.
    + eapply Nat.le_trans; [apply filter_length_le |].
      now rewrite length_map.
    + intros r Hr. apply filter_In in Hr. destruct Hr as [Hin Hlen].
      apply in_map_iff in Hin. destruct Hin as [r0 [<- Hin0]].
      exists r0. split; [exact Hin0 |]. split; [| repeat split].
      unfold set_response_text in Hlen. cbn [response_text] in Hlen.
      destruct (response_text r0) as [t | |]; [reflexivity | |];
        vm_compute in Hlen; discriminate Hlen.
Qed.

(* ================================================================== *)
(** * Further properties: running an operation again *)
(* ================================================================== *)

(** On a frame that already has the three result columns,
    [analyze_dataframe] overwrites them in place. *)
Lemma analyze_dataframe_present (cols : list string) (rs : list Row) :
  existsb (String.eqb "response_text") cols = true ->
  existsb (String.eqb "hallucination_flag") cols = true ->
  existsb (String.eqb "confidence_score") cols = true ->
  existsb (String.eqb "final_label") cols = true ->
  analyze_dataframe (mkFrame cols rs) =
  Ok (mkFrame cols
        (map (fun r =>
                let x := score_response (response_text r) in
                set_final_label
                  (set_confidence_score
                     (set_hallucination_flag r (fst (fst x))) (snd (fst x)))
                  (PyStr (snd x)))
             rs)).
Proof.
  intros Htext Hflag Hconf Hlabel.
  unfold analyze_dataframe, has_column. cbn [columns].
  rewrite Htext. simpl negb. cbv iota zeta.
  unfold column, Series.apply. cbn [rows]. rewrite !map_map.
  rewrite assign_self, Hflag, assign_map, Hconf, assign_map, Hlabel.
  reflexivity.
Qed.

(** X9: analyzing is idempotent: [analyze_dataframe] applied to a frame
    that it returned returns that frame again; the three columns are
    overwritten with the same values, not added a second time. *)
Theorem analyze_dataframe_idempotent (df out : DataFrame) :
  analyze_dataframe df = Ok out ->
  analyze_dataframe out = Ok out.
Proof.
  intros Hout.
  assert (Htext : has_column "response_text" df = true).
  { unfold analyze_dataframe in Hout.
    destruct (has_column "response_text" df); [reflexivity | discriminate]. }
  destruct (analyze_dataframe_rows df Htext) as [out' [Hout' Hrows]].
  assert (out' = out) by congruence. subst out'.
  destruct (analyze_dataframe_columns df out Hout) as [Hreq Hkeep].
  specialize (Hkeep _ Htext).
  unfold required_cols in Hreq. cbn [forallb] in Hreq.
  apply andb_true_iff in Hreq. destruct Hreq as [Hflag Hreq].
  apply andb_true_iff in Hreq. destruct Hreq as [Hconf Hreq].
  apply andb_true_iff in Hreq. destruct Hreq as [Hlabel _].
  destruct out as [cols rs]. cbn [rows] in Hrows.
  rewrite (analyze_dataframe_present cols rs Hkeep Hflag Hconf Hlabel).
  do 2 f_equal. rewrite Hrows, map_map. apply map_ext.
  intros r. reflexivity.
Qed.

Lemma analyze_dataframe_idempotent_witness :
  analyze_dataframe
    (mkFrame [ "model_name"; "response_text"; "hallucination_flag";
               "confidence_score"; "final_label" ]
       [ mkRow (PyStr "Approximately 42") (PyStr "Model-B")
               1 0.1 (PyStr "hallucinated") 0;
         mkRow (PyStr "Paris is the capital of France.") (PyStr "Model-A")
               0 1.0 (PyStr "accurate") 0 ]%float) =
  Ok (mkFrame [ "model_name"; "response_text"; "hallucination_flag";
                "confidence_score"; "final_label" ]
        [ mkRow (PyStr "Approximately 42") (PyStr "Model-B")
                1 0.1 (PyStr "hallucinated") 0;
          mkRow (PyStr "Paris is the capital of France.") (PyStr "Model-A")
                0 1.0 (PyStr "accurate") 0 ]%float).
Proof.
  apply (analyze_dataframe_idempotent Examples.raw_responses).
  vm_compute. reflexivity.
Defined.

(** X10: scoring is idempotent: [compute_final_score] applied to a frame
    that it returned returns that frame again. *)
Theorem compute_final_score_idempotent (df out : DataFrame) :
  compute_final_score df = Ok out ->
  compute_final_score out = Ok out.
Proof.
  intros Hout.
  assert (Hreq : forallb (fun c => has_column c df) required_cols = true).
  { unfold compute_final_score in Hout.
    destruct (forallb (fun c => has_column c df) required_cols);
      [reflexivity | discriminate]. }
  rewrite (compute_final_score_rows df Hreq) in Hout. injection Hout as <-.
  rewrite compute_final_score_rows.
  - cbn [rows columns]. do 2 f_equal.
    + unfold has_column at 1. cbn [columns].
      destruct (has_column "hallucination_risk_score" df) eqn:E.
      * unfold has_column in E. now rewrite E.
      * now rewrite has_column_app_r.
    + rewrite map_map. apply map_ext. intros r. reflexivity.
  - apply forallb_forall. intros c Hc.
    rewrite forallb_forall in Hreq. specialize (Hreq c Hc).
    unfold has_column in *. cbn [columns].
    destruct (existsb (String.eqb "hallucination_risk_score") (columns df));
      [exact Hreq |].
    rewrite existsb_app, Hreq. reflexivity.
Qed.

Lemma compute_final_score_idempotent_witness :
  compute_final_score Examples.scored_sample = Ok Examples.scored_sample.
Proof.
  apply (compute_final_score_idempotent Examples.sample_data).
  vm_compute. reflexivity.
Defined.

(* ================================================================== *)
(** * Further properties: the model summary *)
(* ================================================================== *)

Lemma insert_sorted_Sorted (k : string) (l : list string) :
  Sorted (fun a b => String.leb a b = true) l ->
  Sorted (fun a b => String.leb a b = true) (insert_sorted k l).
Proof.
  induction l as [| x l IH]; intros Hs; simpl.
  - repeat constructor.
  - destruct (String.leb k x) eqn:E.
    + constructor; [exact Hs | constructor; exact E].
    + apply Sorted_inv in Hs. destruct Hs as [Hs Hhd].
      constructor; [now apply IH |].
      destruct l as [| y l]; simpl.
      * constructor. destruct (String.leb_total k x); congruence.
      * destruct (String.leb k y).
        -- constructor. destruct (String.leb_total k x); congruence.
        -- constructor. now apply HdRel_inv in Hhd.
Qed.

Lemma sort_Sorted (l : list string) :
  Sorted (fun a b => String.leb a b = true) (sort l).
Proof.
  induction l as [| x l IH]; simpl.
  - constructor.
  - now apply insert_sorted_Sorted.
Qed.

Lemma leb_neq_ltb (a b : string) :
  String.leb a b = true -> a <> b -> String.ltb a b = true.
Proof.
  unfold String.leb, String.ltb. intros Hle Hne.
  destruct (String.compare a b) eqn:E; try reflexivity; try discriminate.
  apply String.compare_eq_iff in E. contradiction.
Qed.

(** A sorted list without repetition is strictly ascending. *)
Lemma Sorted_NoDup_strict (l : list string) :
  Sorted (fun a b => String.leb a b = true) l -> NoDup l ->
  Sorted (fun a b => String.ltb a b = true) l.
Proof.
  induction l as [| x l IH]; intros Hs Hn; [constructor |].
  apply Sorted_inv in Hs. destruct Hs as [Hs Hhd].
  apply NoDup_cons_iff in Hn. destruct Hn as [Hx Hn].
  constructor; [now apply IH |].
  destruct l as [| y l]; constructor.
  apply HdRel_inv in Hhd. apply leb_neq_ltb; [exact Hhd |].
  intros ->. apply Hx. now left.
Qed.

(** X14: the rows of the summary come in strictly ascending order of the
    model name (the order of Python on strings), each name once. *)
Theorem summary_sorted_by_model_name (df : DataFrame)
    (out : list ModelSummary) :
  generate_model_summary df = Ok out ->
  Sorted (fun a b => String.ltb a b = true) (map summary_model_name out).
Proof.
  intros Hout. rewrite (generate_model_summary_inv df out Hout), summary_names.
  apply Sorted_NoDup_strict; [apply sort_Sorted | apply group_keys_NoDup].
Qed.

Lemma summary_sorted_by_model_name_witness :
  Sorted (fun a b => String.ltb a b = true)
    (map summary_model_name
       [ summarize "Model-A" (group "Model-A" Examples.scored_sample);
         summarize "Model-B" (group "Model-B" Examples.scored_sample) ]).
Proof.
  apply (summary_sorted_by_model_name Examples.scored_sample).
  reflexivity.
Defined.

(** X16: a group without a single label present has [total_responses] 0
    and both counts 0, and its [hallucination_rate] is nan: the division by
    zero is not an error. *)
Theorem empty_total_gives_nan_rate (df : DataFrame) (out : list ModelSummary)
    (s : ModelSummary) :
  generate_model_summary df = Ok out ->
  In s out ->
  total_responses s = 0 ->
  hallucinated_count s = 0 /\ uncertain_count s = 0 /\
  PrimFloat.is_nan (hallucination_rate s) = true.
Proof.
  intros Hout Hs Htotal.
  destruct (summary_In df out s Hout Hs) as [_ Heq].
  remember (summary_model_name s) as key eqn:Ekey. clear Ekey Hs Hout.
  subst s. cbn [total_responses hallucinated_count uncertain_count
                hallucination_rate summarize] in *.
  pose proof (counts_bounded (map final_label (group key df))) as Hle.
  assert (Hh : Series.count_eq (map final_label (group key df)) "hallucinated" = 0).
  { unfold Series.count_eq, Series.count in *. lia. }
  assert (Hu : Series.count_eq (map final_label (group key df)) "uncertain" = 0).
  { unfold Series.count_eq, Series.count in *. lia. }
  rewrite Hh, Hu, Htotal. repeat split.
Qed.

Lemma empty_total_gives_nan_rate_witness :
  hallucinated_count
    (summarize "Model-A" [Examples.scored (PyStr "Model-A") PyNone 0 0.7 0.3]) = 0 /\
  uncertain_count
    (summarize "Model-A" [Examples.scored (PyStr "Model-A") PyNone 0 0.7 0.3]) = 0 /\
  PrimFloat.is_nan
    (hallucination_rate
       (summarize "Model-A" [Examples.scored (PyStr "Model-A") PyNone 0 0.7 0.3])) =
  true.
Proof.
  apply (empty_total_gives_nan_rate
           (mkFrame Examples.all_columns
                    [Examples.scored (PyStr "Model-A") PyNone 0 0.7 0.3])
           [summarize "Model-A"
              [Examples.scored (PyStr "Model-A") PyNone 0 0.7 0.3]]).
  - reflexivity.
  - left. reflexivity.
  - reflexivity.
Defined.

Section GroupedCounts.

Variable p : Row -> bool.

Lemma sum_map_add {X : Type} (a b : X -> Z) (K : list X) :
  fold_right Z.add 0 (map (fun k => a k + b k) K) =
  fold_right Z.add 0 (map a K) + fold_right Z.add 0 (map b K).
Proof. induction K as [| k K IH]; simpl; lia. Qed.

Lemma sum_map_zero {X : Type} (a : X -> Z) (K : list X) :
  (forall k, In k K -> a k = 0) -> fold_right Z.add 0 (map a K) = 0.
Proof.
  induction K as [| k K IH]; simpl; intros H; [reflexivity |].
  rewrite H by now left. rewrite IH; [reflexivity |].
  intros k' Hk'. apply H. now right.
Qed.

(** Among distinct keys exactly one is a given key. *)
Lemma sum_indicator (n : string) (K : list string) :
  NoDup K -> In n K ->
  fold_right Z.add 0 (map (fun k => if String.eqb n k then 1 else 0) K) = 1.
Proof.
  induction K as [| k K IH]; simpl; intros Hn Hin; [contradiction |].
  apply NoDup_cons_iff in Hn. destruct Hn as [Hk Hn].
  destruct (String.eqb n k) eqn:E.
  - apply String.eqb_eq in E. subst k.
    rewrite sum_map_zero; [reflexivity |].
    intros k' Hk'. destruct (String.eqb n k') eqn:E'; [| reflexivity].
    apply String.eqb_eq in E'. subst k'. contradiction.
  - destruct Hin as [-> | Hin]; [now rewrite String.eqb_refl in E |].
    now rewrite IH.
Qed.

(** Counting the rows that satisfy [p] group by group, over distinct keys
    that cover the names, counts every named row that satisfies [p] once. *)
Lemma grouped_count (rs : list Row) (K : list string) :
  NoDup K ->
  (forall r n, In r rs -> model_name r = PyStr n -> In n K) ->
  fold_right Z.add 0
    (map (fun k =>
            Z.of_nat (List.length
                        (filter p (filter (fun r => py_eq_str (model_name r) k) rs))))
         K) =
  Z.of_nat (List.length
              (filter (fun r => negb (isna (model_name r)) && p r) rs)).
Proof.
  intros Hn. induction rs as [| r rs IH]; intros Hcover.
  - cbn [filter List.length]. now apply sum_map_zero.
  - rewrite (map_ext _
      (fun k =>
         (if py_eq_str (model_name r) k && p r then 1 else 0) +
         Z.of_nat (List.length
                     (filter p (filter (fun r => py_eq_str (model_name r) k) rs))))).
    2: { intros k. cbn [filter].
         destruct (py_eq_str (model_name r) k); cbn [filter andb]; [| lia].
         destruct (p r); cbn [List.length]; lia. }
    rewrite sum_map_add, IH.
    2: { intros r' n Hr'. apply Hcover. now right. }
    cbn [filter].
    destruct (model_name r) as [n | |] eqn:E; cbn [isna negb py_eq_str andb].
    + destruct (p r).
      * rewrite (map_ext _ (fun k => if String.eqb n k then 1 else 0)).
        2: { intros k. now rewrite andb_true_r. }
        rewrite sum_indicator; [cbn [List.length]; lia | exact Hn |].
        apply (Hcover r n); [now left | exact E].
      * rewrite sum_map_zero; [reflexivity |].
        intros k _. now rewrite andb_false_r.
    + rewrite sum_map_zero; reflexivity.
    + rewrite sum_map_zero; reflexivity.
Qed.

End GroupedCounts.

(** X15: the groups share out the named rows: over the rows of the summary,
    [total_responses] adds up to the number of rows of the frame that have
    a name and a label, and [hallucinated_count] and [uncertain_count] add
    up to the numbers of rows that have a name and the label "hallucinated"
    and "uncertain".  No row is counted twice, and only a row with a
    missing name is counted in no group. *)
Theorem summary_counts_conserved (df : DataFrame) (out : list ModelSummary) :
  generate_model_summary df = Ok out ->
  fold_right Z.add 0 (map total_responses out) =
    Z.of_nat (List.length
                (filter (fun r => negb (isna (model_name r)) &&
                                  negb (isna (final_label r))) (rows df))) /\
  fold_right Z.add 0 (map hallucinated_count out) =
    Z.of_nat (List.length
                (filter (fun r => negb (isna (model_name r)) &&
                                  py_eq_str (final_label r) "hallucinated")
                        (rows df))) /\
  fold_right Z.add 0 (map uncertain_count out) =
    Z.of_nat (List.length
                (filter (fun r => negb (isna (model_name r)) &&
                                  py_eq_str (final_label r) "uncertain")
                        (rows df))).
Proof.
  intros Hout. rewrite (generate_model_summary_inv df out Hout).
  assert (Hcover : forall r n, In r (rows df) -> model_name r = PyStr n ->
                               In n (group_keys df)).
  { intros r n Hr Hname. apply group_keys_In. unfold column.
    rewrite <- Hname. now apply in_map. }
  rewrite !map_map. cbn [total_responses hallucinated_count uncertain_count
                         summarize].
  unfold Series.count, Series.count_eq, group.
  split; [| split].
  - rewrite <- (grouped_count (fun r => negb (isna (final_label r)))
                  (rows df) (group_keys df) (group_keys_NoDup df) Hcover).
    apply f_equal, map_ext. intros k. now rewrite filter_map_length.
  - rewrite <- (grouped_count (fun r => py_eq_str (final_label r) "hallucinated")
                  (rows df) (group_keys df) (group_keys_NoDup df) Hcover).
    apply f_equal, map_ext. intros k. now rewrite filter_map_length.
  - rewrite <- (grouped_count (fun r => py_eq_str (final_label r) "uncertain")
                  (rows df) (group_keys df) (group_keys_NoDup df) Hcover).
    apply f_equal, map_ext. intros k. now rewrite filter_map_length.
Qed.

Lemma summary_counts_conserved_witness :
  fold_right Z.add 0
    (map total_responses
       [ summarize "Model-A" (group "Model-A" Examples.scored_sample);
         summarize "Model-B" (group "Model-B" Examples.scored_sample) ]) =
    Z.of_nat (List.length
                (filter (fun r => negb (isna (model_name r)) &&
                                  negb (isna (final_label r)))
                        (rows Examples.scored_sample))) /\
  fold_right Z.add 0
    (map hallucinated_count
       [ summarize "Model-A" (group "Model-A" Examples.scored_sample);
         summarize "Model-B" (group "Model-B" Examples.scored_sample) ]) =
    Z.of_nat (List.length
                (filter (fun r => negb (isna (model_name r)) &&
                                  py_eq_str (final_label r) "hallucinated")
                        (rows Examples.scored_sample))) /\
  fold_right Z.add 0
    (map uncertain_count
       [ summarize "Model-A" (group "Model-A" Examples.scored_sample);
         summarize "Model-B" (group "Model-B" Examples.scored_sample) ]) =
    Z.of_nat (List.length
                (filter (fun r => negb (isna (model_name r)) &&
                                  py_eq_str (final_label r) "uncertain")
                        (rows Examples.scored_sample))).
Proof.
  apply (summary_counts_conserved Examples.scored_sample).
  reflexivity.
Defined.

(* ================================================================== *)
(** * Further properties: the pipeline of the main block *)
(* ================================================================== *)

Lemma has_column_assign_neq {A : Type} (c name : string)
    (set : Row -> A -> Row) (df : DataFrame) (values : list A) :
  String.eqb c name = false ->
  has_column c (assign name set df values) = has_column c df.
Proof.
  intros Hne. unfold assign, has_column. cbn [columns].
  destruct (existsb (String.eqb name) (columns df)); [reflexivity |].
  rewrite existsb_app. simpl. rewrite Hne. now rewrite !orb_false_r.
Qed.

(** The detector and the scorer neither add nor remove the name column. *)
Lemma analyze_dataframe_model_name (df out : DataFrame) :
  analyze_dataframe df = Ok out ->
  has_column "model_name" out = has_column "model_name" df.
Proof.
  unfold analyze_dataframe.
  destruct (has_column "response_text" df); [| discriminate].
  simpl negb. cbv iota zeta. intros H. injection H as <-.
  now rewrite !has_column_assign_neq by reflexivity.
Qed.

Lemma compute_final_score_inv (df out : DataFrame) :
  compute_final_score df = Ok out ->
  forallb (fun c => has_column c df) required_cols = true.
Proof.
  unfold compute_final_score.
  destruct (forallb (fun c => has_column c df) required_cols);
    [reflexivity | discriminate].
Qed.

Lemma compute_final_score_columns (df out : DataFrame) (c : string) :
  compute_final_score df = Ok out ->
  has_column c out =
  has_column c df || String.eqb c "hallucination_risk_score".
Proof.
  intros Hout.
  rewrite (compute_final_score_rows df (compute_final_score_inv df out Hout))
    in Hout.
  injection Hout as <-. unfold has_column at 1. cbn [columns].
  destruct (has_column "hallucination_risk_score" df) eqn:E.
  - fold (has_column c df).
    destruct (String.eqb c "hallucination_risk_score") eqn:Ec.
    + apply String.eqb_eq in Ec. subst c. rewrite E. reflexivity.
    + now rewrite orb_false_r.
  - rewrite existsb_app. simpl. now rewrite orb_false_r.
Qed.

Lemma analyze_dataframe_inv (df out : DataFrame) :
  analyze_dataframe df = Ok out -> has_column "response_text" df = true.
Proof.
  unfold analyze_dataframe.
  destruct (has_column "response_text" df); [reflexivity | discriminate].
Qed.

(** The stages of a run that succeeds. *)
Lemma run_inv (df scored : DataFrame) (summary : list ModelSummary) :
  Main.run df = Ok (scored, summary) ->
  exists cleaned classified,
    DataLoader.clean_responses df = Ok cleaned /\
    analyze_dataframe cleaned = Ok classified /\
    compute_final_score classified = Ok scored /\
    generate_model_summary scored = Ok summary.
Proof.
  unfold Main.run, bind.
  destruct (DataLoader.clean_responses df) as [cleaned |] eqn:E1;
    [| discriminate].
  destruct (analyze_dataframe cleaned) as [classified |] eqn:E2;
    [| discriminate].
  destruct (compute_final_score classified) as [scored' |] eqn:E3;
    [| discriminate].
  destruct (generate_model_summary scored') as [summary' |] eqn:E4;
    [| discriminate].
  intros H. injection H as <- <-. now exists cleaned, classified.
Qed.

(** The stages of a run on a frame with the text column: only the summary
    can still fail, and it does when the name column is absent. *)
Lemma run_stages (df : DataFrame) :
  has_column "response_text" df = true ->
  exists cleaned classified scored,
    DataLoader.clean_responses df = Ok cleaned /\
    analyze_dataframe cleaned = Ok classified /\
    compute_final_score classified = Ok scored /\
    Main.run df = bind (generate_model_summary scored)
                       (fun summary_df => Ok (scored, summary_df)) /\
    has_column "model_name" scored = has_column "model_name" df /\
    forallb (fun c => has_column c scored) aggregated_cols = true.
Proof.
  intros Htext.
  pose proof (clean_responses_ok df Htext) as Hclean.
  set (cleaned := mkFrame (columns df) _) in Hclean.
  assert (Htext' : has_column "response_text" cleaned = true) by exact Htext.
  destruct (analyze_dataframe_rows cleaned Htext') as [classified [Hana _]].
  destruct (analyze_dataframe_columns cleaned classified Hana) as [Hreq _].
  pose proof (compute_final_score_rows classified Hreq) as Hscore.
  set (scored := mkFrame _ _) in Hscore.
  exists cleaned, classified, scored.
  split; [exact Hclean |]. split; [exact Hana |]. split; [exact Hscore |].
  split; [| split].
  - unfold Main.run. rewrite Hclean. cbn [bind]. rewrite Hana. cbn [bind].
    rewrite Hscore. reflexivity.
  - rewrite (compute_final_score_columns classified scored _ Hscore).
    rewrite (analyze_dataframe_model_name cleaned classified Hana).
    simpl. now rewrite orb_false_r.
  - unfold required_cols in Hreq. cbn [forallb] in Hreq.
    apply andb_true_iff in Hreq. destruct Hreq as [_ Hreq].
    apply andb_true_iff in Hreq. destruct Hreq as [Hconf Hreq].
    apply andb_true_iff in Hreq. destruct Hreq as [Hlabel _].
    unfold aggregated_cols. cbn [forallb].
    rewrite !(compute_final_score_columns classified scored _ Hscore).
    rewrite Hconf, Hlabel. simpl. now rewrite orb_true_r.
Qed.

(** X11: on a loaded frame of which at least one response survives the
    cleaning, the pipeline (clean, analyze, score, summarize) succeeds when
    the frame has the name column, and returns a scored frame with one row
    for each cleaned response; without the name column it fails with the
    schema error.  The [KeyError] of the aggregation cannot occur in the
    pipeline.  (With no response left, pandas gives the columns it creates
    another dtype than the one of this model.) *)
Theorem pipeline_fails_only_on_schema (df cleaned : DataFrame) :
  DataLoader.clean_responses df = Ok cleaned ->
  rows cleaned <> [] ->
  (has_column "model_name" df = true ->
   exists scored summary,
     Main.run df = Ok (scored, summary) /\
     List.length (rows scored) = List.length (rows cleaned)) /\
  (has_column "model_name" df = false ->
   Main.run df = Raise ValueError).
Proof.
  intros Hclean _.
  pose proof (clean_responses_inv df cleaned Hclean) as Htext.
  destruct (run_stages df Htext)
    as [cleaned' [classified [scored [Hclean' [Hana [Hscore [Hrun [Hname Hagg]]]]]]]].
  assert (cleaned' = cleaned) by congruence. subst cleaned'.
  rewrite Hrun. split; intros H; rewrite H in Hname.
  - rewrite (generate_model_summary_ok scored Hname Hagg). cbn [bind].
    eexists. eexists. split; [reflexivity |].
    destruct (analyze_then_score cleaned
                (analyze_dataframe_inv cleaned classified Hana))
      as [classified' [scored' [Hana' [Hscore' Hlen]]]].
    assert (classified' = classified) by congruence. subst classified'.
    assert (scored' = scored) by congruence. now subst scored'.
  - unfold generate_model_summary. rewrite Hname. reflexivity.
Qed.

Lemma pipeline_fails_only_on_schema_witness :
  (has_column "model_name" Examples.loaded_responses = true ->
   exists scored summary,
     Main.run Examples.loaded_responses = Ok (scored, summary) /\
     List.length (rows scored) = List.length (rows Examples.cleaned_responses)) /\
  (has_column "model_name" Examples.loaded_responses = false ->
   Main.run Examples.loaded_responses = Raise ValueError).
Proof.
  apply (pipeline_fails_only_on_schema Examples.loaded_responses
           Examples.cleaned_responses).
  - reflexivity.
  - discriminate.
Defined.

(** In the result of [score_response] the label says "hallucinated"
    exactly when the flag is 1, and the risk score computed from the flag
    and the confidence is at least 1.1 with the flag and at most 0.5
    without. *)
Lemma score_response_flag_risk (v : pyval) :
  let x := score_response v in
  let risk := PyFloat.np_round2
                ((1 - snd (fst x)) + PyFloat.of_int64 (fst (fst x)) * 0.5)%float in
  String.eqb (snd x) "hallucinated" = (fst (fst x) =? 1) /\
  (fst (fst x) = 1 /\ (1.1 <=? risk)%float = true \/
   fst (fst x) = 0 /\ (risk <=? 0.5)%float = true).
Proof.
  cbv zeta. rewrite score_response_cases.
  destruct (contains_uncertainty (normalize v)),
    (has_numeric_claim (normalize v)),
    (String.length (normalize v) <? 30)%nat; cbn [fst snd];
    (split; [reflexivity |]);
    first [ left; split; [reflexivity | vm_compute; reflexivity]
          | right; split; [reflexivity | vm_compute; reflexivity] ].
Qed.

(** What a row of the scored frame of a run holds. *)
Lemma run_rows (df scored : DataFrame) (summary : list ModelSummary) (r : Row) :
  Main.run df = Ok (scored, summary) ->
  In r (rows scored) ->
  exists t : string,
    response_text r = PyStr t /\
    (10 < String.length t)%nat /\
    hallucination_flag r = fst (fst (score_response (PyStr t))) /\
    confidence_score r = snd (fst (score_response (PyStr t))) /\
    final_label r = PyStr (snd (score_response (PyStr t))) /\
    hallucination_risk_score r =
      PyFloat.np_round2
        ((1 - confidence_score r)
         + PyFloat.of_int64 (hallucination_flag r) * 0.5)%float.
Proof.
  intros Hrun Hr.
  destruct (run_inv df scored summary Hrun)
    as [cleaned [classified [Hclean [Hana [Hscore _]]]]].
  rewrite (compute_final_score_rows classified
             (compute_final_score_inv classified scored Hscore)) in Hscore.
  injection Hscore as <-. cbn [rows] in Hr.
  destruct (analyze_dataframe_rows cleaned
              (analyze_dataframe_inv cleaned classified Hana))
    as [classified' [Hana' Hrows]].
  assert (classified' = classified) by congruence. subst classified'.
  rewrite Hrows, map_map in Hr.
  rewrite (clean_responses_ok df (clean_responses_inv df cleaned Hclean))
    in Hclean.
  injection Hclean as <-. cbn [rows] in Hr.
  apply in_map_iff in Hr. destruct Hr as [r1 [<- Hr1]].
  apply filter_In in Hr1. destruct Hr1 as [Hin Hlen].
  apply in_map_iff in Hin. destruct Hin as [r0 [<- _]].
  cbn [response_text set_response_text] in Hlen.
  eexists. split; [reflexivity |].
  split; [now apply Nat.ltb_lt |]. repeat split.
Qed.

(** X13: every row of the scored frame of a run holds a cleaned text of
    more than 10 characters together with the flag, confidence and label
    that [score_response] gives that text; its flag is 0 or 1, and its risk
    score is at least 1.1 when it is flagged and at most 0.5 when it is
    not, so the risk score alone tells the flagged rows from the others. *)
Theorem pipeline_risk_separates_flagged (df scored : DataFrame)
    (summary : list ModelSummary) (r : Row) :
  Main.run df = Ok (scored, summary) ->
  In r (rows scored) ->
  (exists t : string,
      response_text r = PyStr t /\
      (10 < String.length t)%nat /\
      (hallucination_flag r, confidence_score r) =
        fst (score_response (PyStr t)) /\
      final_label r = PyStr (snd (score_response (PyStr t)))) /\
  (hallucination_flag r = 1 /\
   (1.1 <=? hallucination_risk_score r)%float = true \/
   hallucination_flag r = 0 /\
   (hallucination_risk_score r <=? 0.5)%float = true).
Proof.
  intros Hrun Hr.
  destruct (run_rows df scored summary r Hrun Hr)
    as [t [Ht [Hlen [Hflag [Hconf [Hlabel Hrisk]]]]]].
  split.
  - exists t. split; [exact Ht |]. split; [exact Hlen |].
    split; [| exact Hlabel].
    rewrite Hflag, Hconf. now destruct (score_response (PyStr t)) as [[? ?] ?].
  - rewrite Hrisk, Hflag, Hconf.
    exact (proj2 (score_response_flag_risk (PyStr t))).
Qed.

Lemma pipeline_risk_separates_flagged_witness :
  (exists t : string,
      response_text Examples.flagged_row = PyStr t /\
      (10 < String.length t)%nat /\
      (hallucination_flag Examples.flagged_row,
       confidence_score Examples.flagged_row) =
        fst (score_response (PyStr t)) /\
      final_label Examples.flagged_row =
        PyStr (snd (score_response (PyStr t)))) /\
  (hallucination_flag Examples.flagged_row = 1 /\
   (1.1 <=? hallucination_risk_score Examples.flagged_row)%float = true \/
   hallucination_flag Examples.flagged_row = 0 /\
   (hallucination_risk_score Examples.flagged_row <=? 0.5)%float = true).
Proof.
  apply (pipeline_risk_separates_flagged Examples.loaded_responses
           Examples.run_scored Examples.run_summary).
  - vm_compute. reflexivity.
  - left. reflexivity.
Defined.

(** X12: in the summary of a run every model has at least one response,
    its [total_responses] is the number of rows of its name in the scored
    frame (no label is missing there), and its [hallucinated_count] is the
    number of those rows that are flagged. *)
Theorem pipeline_summary_counts_rows (df scored : DataFrame)
    (summary : list ModelSummary) (s : ModelSummary) :
  Main.run df = Ok (scored, summary) ->
  In s summary ->
  1 <= total_responses s /\
  total_responses s =
    Z.of_nat (List.length
                (filter (fun r => py_eq_str (model_name r) (summary_model_name s))
                        (rows scored))) /\
  hallucinated_count s =
    Z.of_nat (List.length
                (filter (fun r => hallucination_flag r =? 1)
                   (filter (fun r => py_eq_str (model_name r) (summary_model_name s))
                           (rows scored)))).
Proof.
  intros Hrun Hs.
  destruct (run_inv df scored summary Hrun)
    as [cleaned [classified [_ [_ [_ Hsum]]]]].
  destruct (summary_In scored summary s Hsum Hs) as [Hkey Heq].
  fold (group (summary_model_name s) scored).
  remember (summary_model_name s) as key eqn:Ekey. clear Ekey Hs Hsum.
  subst s. cbn [total_responses hallucinated_count summarize].
  unfold Series.count, Series.count_eq. rewrite !filter_map_length.
  assert (Hrows : forall r, In r (group key scored) ->
            negb (isna (final_label r)) = true /\
            py_eq_str (final_label r) "hallucinated" =
            (hallucination_flag r =? 1)).
  { intros r Hr. apply filter_In in Hr. destruct Hr as [Hr _].
    destruct (run_rows df scored summary r Hrun Hr)
      as [t [_ [_ [Hflag [_ [Hlabel _]]]]]].
    rewrite Hlabel, Hflag. split; [reflexivity |].
    exact (proj1 (score_response_flag_risk (PyStr t))). }
  assert (Hall : filter (fun r => negb (isna (final_label r))) (group key scored) =
                 group key scored).
  { apply filter_all, forallb_forall. intros r Hr. apply (Hrows r Hr). }
  rewrite Hall. split; [| split].
  - apply group_keys_In in Hkey. unfold column in Hkey.
    apply in_map_iff in Hkey. destruct Hkey as [r [Hname Hr]].
    assert (Hin : In r (group key scored)).
    { apply filter_In. split; [exact Hr |].
      rewrite Hname. simpl. apply String.eqb_refl. }
    destruct (group key scored); [contradiction | simpl List.length; lia].
  - reflexivity.
  - do 2 f_equal. apply filter_ext_in. intros r Hr. apply (Hrows r Hr).
Qed.

Lemma pipeline_summary_counts_rows_witness :
  1 <= total_responses (summarize "Model-A" [Examples.flagged_row]) /\
  total_responses (summarize "Model-A" [Examples.flagged_row]) =
    Z.of_nat
      (List.length
         (filter
            (fun r =>
               py_eq_str (model_name r)
                 (summary_model_name
                    (summarize "Model-A" [Examples.flagged_row])))
            (rows Examples.run_scored))) /\
  hallucinated_count (summarize "Model-A" [Examples.flagged_row]) =
    Z.of_nat
      (List.length
         (filter (fun r => hallucination_flag r =? 1)
            (filter
               (fun r =>
                  py_eq_str (model_name r)
                    (summary_model_name
                       (summarize "Model-A" [Examples.flagged_row])))
               (rows Examples.run_scored)))).
Proof.
  apply (pipeline_summary_counts_rows Examples.loaded_responses
           Examples.run_scored Examples.run_summary).
  - vm_compute. reflexivity.
  - left. reflexivity.
Defined.

(* ================================================================== *)
(** * Further properties: the phrase search *)
(* ================================================================== *)

Lemma prefix_iff (p s : string) :
  String.prefix p s = true <-> exists b, s = (p ++ b)%string.
Proof.
  revert s. induction p as [| c p IH]; intros s.
  - split; [intros _; now exists s | intros _; now destruct s].
  - destruct s as [| d s]; simpl.
    + split; [discriminate | intros [b Hb]; discriminate Hb].
    + destruct (ascii_dec c d) as [-> | Hne].
      * rewrite IH. split; intros [b Hb]; exists b; [now rewrite Hb |].
        now injection Hb.
      * split; [discriminate | intros [b Hb]]. injection Hb as Hd _.
        now symmetry in Hd.
Qed.

(** [contains p s] holds exactly when p is a contiguous part of s. *)
Lemma contains_iff (p s : string) :
  PyString.contains p s = true <-> exists a b, s = (a ++ p ++ b)%string.
Proof.
  induction s as [| c s IH]; cbn [PyString.contains].
  - rewrite orb_false_r, prefix_iff. split.
    + intros [b Hb]. now exists ""%string, b.
    + intros [a [b Hab]]. destruct a; [now exists b | discriminate Hab].
  - rewrite orb_true_iff, prefix_iff, IH. split.
    + intros [[b Hb] | [a [b Hab]]].
      * now exists ""%string, b.
      * exists (String c a), b. simpl. now rewrite Hab.
    + intros [a [b Hab]]. destruct a as [| d a].
      * left. now exists b.
      * right. simpl in Hab. injection Hab as _ Hs. now exists a, b.
Qed.

(** X17: [contains_uncertainty] holds exactly when one of the eight
    configured phrases occurs, as a contiguous run of characters, in the
    lowercased text: the match is by substring, in any letter case, and
    does not stop at word boundaries. *)
Theorem contains_uncertainty_iff_substring (text : string) :
  contains_uncertainty text = true <->
  exists phrase a b,
    In phrase uncertainty_phrases /\
    PyString.lower text = (a ++ phrase ++ b)%string.
Proof.
  unfold contains_uncertainty. rewrite existsb_exists. split.
  - intros [phrase [Hin Hc]]. apply contains_iff in Hc.
    destruct Hc as [a [b Hab]]. now exists phrase, a, b.
  - intros [phrase [a [b [Hin Hab]]]]. exists phrase. split; [exact Hin |].
    apply contains_iff. now exists a, b.
Qed.
